(** * Caddie-AI: the golf data store and the caddie's conversation bridge

    A shallow embedding of [src/hooks/useGolfData.ts], which holds three
    TypeScript modules: the React data provider ([useLocalStorage],
    [GolfDataProvider] and its four mutators), the audio service, and the
    Gemini bridge ([responseSchema], [buildSystemPrompt],
    [getJpConversationalResponse]).

    Layout: the JavaScript runtime the code relies on (completions, numbers,
    strings, JSON values), the data model, the provider, the bridge, and then
    the properties. *)

From Stdlib Require Import ZArith List String Ascii Bool Lia.
From Stdlib Require Import SpecFloat DecimalString.
Import ListNotations.

Local Open Scope string_scope.
Local Open Scope list_scope.
Local Open Scope Z_scope.

(** ** The JavaScript runtime *)

(** A thrown value; only its diagnostic text is kept. *)
Definition exn := string.

(** How evaluating an expression ends: with a value or with a [throw]. *)
Inductive completion (A : Type) : Type :=
| Normal (a : A)
| Throw (e : exn).
Arguments Normal {A} a.
Arguments Throw {A} e.

(** [console.error] and [console.warn] lines, oldest first. *)
Definition console := list string.

(** The double quote character, which the prompt text contains. *)
Definition dq : string := String (ascii_of_nat 34) EmptyString.

(** *** Numbers

    A JavaScript number is an IEEE 754 binary64 value. *)
Module Number.

Definition prec : Z := 53.
Definition emax : Z := 1024.

Definition t := spec_float.

(** The number an integer literal denotes (the nearest double). *)
Definition of_Z (z : Z) : t := binary_normalize prec emax z 0 false.

Definition add : t -> t -> t := SFadd prec emax.
Definition div : t -> t -> t := SFdiv prec emax.

(** Decimal digits of an integer, with a leading minus sign when negative. *)
Definition digits (z : Z) : string := NilEmpty.string_of_int (Z.to_int z).

Fixpoint zeros (n : nat) : string :=
  match n with
  | O => EmptyString
  | S n' => String "0"%char (zeros n')
  end.

(** [m * 2^e >= 10^21], for a positive mantissa. *)
Definition ge_1e21 (m : positive) (e : Z) : bool :=
  if 0 <=? e then 10 ^ 21 <=? Zpos m * 2 ^ e
  else 10 ^ 21 * 2 ^ (- e) <=? Zpos m.

(** The integer [n] for which [n / 10^f - m * 2^e] is as close to zero as
    possible, the larger one when there are two. *)
Definition nearest_scaled (m : positive) (e : Z) (f : nat) : Z :=
  let num := Zpos m * 10 ^ Z.of_nat f in
  if 0 <=? e then num * 2 ^ e
  else (2 * num + 2 ^ (- e)) / (2 * 2 ^ (- e)).

(** Steps 9.b to 9.c of [Number.prototype.toFixed]: the digits of [n],
    left-padded with zeros to [f + 1] characters, with a point before the
    last [f] of them. *)
Definition fixed_point (n : Z) (f : nat) : string :=
  let m := digits n in
  let m := (zeros (S f - String.length m)%nat ++ m)%string in
  match f with
  | O => m
  | _ => let k := String.length m in
         (substring 0 (k - f)%nat m ++ "." ++ substring (k - f)%nat f m)%string
  end.

(** *** [Number::toString] of a double of magnitude [10^21] or more

    Such a double is an integer [X = m * 2^e] with [0 <= e] (its mantissa
    is below [2^53]).  The digits are the shortest decimal [s * 10^p] that
    reads back as the same double, the closest to [X] among those, printed
    in exponent notation. *)

(** Four times the bounds of the interval of reals that round to the
    double [m * 2^e]: half an ulp above, and below half an ulp or a quarter
    of one when [m] is a power of two. *)
Definition interval4 (m : positive) (e : Z) : Z * Z :=
  let X := Zpos m * 2 ^ e in
  let below := if Pos.eqb m (Pos.iter xO xH 52) then 2 ^ e else 2 * 2 ^ e in
  (4 * X - below, 4 * X + 2 * 2 ^ e).

Definition reads_back (m : positive) (e : Z) (v : Z) : bool :=
  let '(lo, hi) := interval4 m e in
  ((lo <? 4 * v) && (4 * v <? hi))
  || (Z.even (Zpos m) && ((4 * v =? lo) || (4 * v =? hi))).

(** The candidates at decimal exponent [p]: [X] rounded down and up to a
    multiple of [10^p]. *)
Definition candidate (m : positive) (e : Z) (p : nat) : option Z :=
  let X := Zpos m * 2 ^ e in
  let P := 10 ^ Z.of_nat p in
  let s_lo := X / P in
  let s_hi := s_lo + 1 in
  let ok_lo := (0 <? s_lo) && reads_back m e (s_lo * P) in
  let ok_hi := reads_back m e (s_hi * P) in
  match ok_lo, ok_hi with
  | true, true =>
      let d_lo := X - s_lo * P in
      let d_hi := s_hi * P - X in
      if d_lo <? d_hi then Some s_lo
      else if d_hi <? d_lo then Some s_hi
      else if Z.even s_lo then Some s_lo else Some s_hi
  | true, false => Some s_lo
  | false, true => Some s_hi
  | false, false => None
  end.

(** The largest decimal exponent, from [p] downwards, with a candidate. *)
Fixpoint shortest (m : positive) (e : Z) (p : nat) : Z * nat :=
  match candidate m e p with
  | Some s => (s, p)
  | None =>
      match p with
      | O => (Zpos m * 2 ^ e, O)
      | S p' => shortest m e p'
      end
  end.

Definition toString_large (m : positive) (e : Z) : string :=
  let X := Zpos m * 2 ^ e in
  let '(s, p) := shortest m e (String.length (digits X)) in
  let ds := digits s in
  let k := String.length ds in
  let n := (k + p)%nat in
  (substring 0 1 ds
   ++ (if (1 <? k)%nat then "." ++ substring 1 (k - 1)%nat ds else EmptyString)
   ++ "e+" ++ digits (Z.of_nat (n - 1)%nat))%string.

(** [Number.prototype.toFixed(fractionDigits)]. *)
Definition toFixed (x : t) (fractionDigits : nat) : string :=
  match x with
  | S754_nan => "NaN"
  | S754_infinity s => if s then "-Infinity" else "Infinity"
  | S754_zero _ => fixed_point 0 fractionDigits
  | S754_finite s m e =>
      ((if s then "-" else EmptyString)
       ++ (if ge_1e21 m e then toString_large m e
           else fixed_point (nearest_scaled m e fractionDigits) fractionDigits))%string
  end.

(** [`${n}`] for an integer-valued number below [10^21] in magnitude. *)
Definition toString_int (z : Z) : string := digits z.

End Number.

(** *** JSON values, as [JSON.parse] produces them *)
Local Set Warnings "-register-all".
Inductive JSON : Type :=
| JNull
| JBool (b : bool)
| JNumber (x : Number.t)
| JString (s : string)
| JArray (items : list JSON)
| JObject (members : list (string * JSON)).

(** The value of a property of a JSON object, [None] when it has none. *)
Fixpoint member (key : string) (members : list (string * JSON)) : option JSON :=
  match members with
  | [] => None
  | (k, v) :: rest => if String.eqb k key then Some v else member key rest
  end.

(** [Array.prototype.join] on an array of strings. *)
Definition join (separator : string) (items : list string) : string :=
  String.concat separator items.

(** [Array.prototype.findIndex], with [None] for the result [-1]. *)
Fixpoint findIndex {A : Type} (p : A -> bool) (l : list A) : option nat :=
  match l with
  | [] => None
  | x :: rest =>
      if p x then Some O
      else match findIndex p rest with
           | Some i => Some (S i)
           | None => None
           end
  end.

(** [a[i] = x] on a copy of the array [a], for an index within its length. *)
Fixpoint assign {A : Type} (l : list A) (i : nat) (x : A) : list A :=
  match l, i with
  | [], _ => []
  | _ :: rest, O => x :: rest
  | y :: rest, S i' => y :: assign rest i' x
  end.

(** *** A state and exception monad for effectful code

    A computation runs on a state [S] (whatever the code can reach: a React
    state cell, the browser storage, the console, the network) and completes
    normally or by throwing. *)
Definition M (S A : Type) : Type := S -> S * completion A.

Definition ret {S A : Type} (a : A) : M S A := fun s => (s, Normal a).

Definition bind {S A B : Type} (c : M S A) (k : A -> M S B) : M S B :=
  fun s =>
    match c s with
    | (s', Normal a) => k a s'
    | (s', Throw e) => (s', Throw e)
    end.

Definition throw {S A : Type} (e : exn) : M S A := fun s => (s, Throw e).

(** The completion of a pure expression, lifted. *)
Definition lift {S A : Type} (c : completion A) : M S A := fun s => (s, c).

Definition modify {S : Type} (f : S -> S) : M S unit := fun s => (f s, Normal tt).

(** [try { body } catch (error) { handler }]. *)
Definition try_catch {S A : Type} (body : M S A) (handler : exn -> M S A) : M S A :=
  fun s =>
    match body s with
    | (s', Normal a) => (s', Normal a)
    | (s', Throw e) => handler e s'
    end.

Declare Scope js_scope.
Delimit Scope js_scope with js.
Notation "x <- c ;; k" := (bind c (fun x => k))
  (at level 61, c at next level, right associativity) : js_scope.
Notation "c ;;; k" := (bind c (fun _ => k))
  (at level 61, right associativity) : js_scope.

(** ** The data model *)

Module Message.
(** Modelled from the spec: [types.ts] is not among the sources.  A message of
    a round's transcript; [sender] is compared with ['jp'] by the bridge. *)
Record t : Type := mk { sender : string; text : string }.
End Message.

Module Shot.
(** Modelled from the spec: [types.ts] is not among the sources.  The
    shot-level detail of a hole performance. *)
Record t : Type := mk { club : string; outcome : string }.
End Shot.

Module HolePerformance.
(** Modelled from the spec: [types.ts] is not among the sources.  Hole numbers
    and scores are integers (within the range a double holds exactly). *)
Record t : Type := mk {
  holeNumber : Z;
  score : Z;
  shots : option (list Shot.t)
}.
End HolePerformance.

Module Hole.
(** Modelled from the spec: [types.ts] is not among the sources.  [notes] is
    optional; hole number, par and yardage are integers (within the range a
    double holds exactly). *)
Record t : Type := mk {
  holeNumber : Z;
  par : Z;
  yardage : Z;
  notes : option (list string)
}.
End Hole.

Module Round.
(** Modelled from the spec: [types.ts] is not among the sources. *)
Record t : Type := mk {
  date : string;
  conditions : string;
  conversation : list Message.t;
  holeByHole : list HolePerformance.t
}.
End Round.

Module Course.
(** Modelled from the spec: [types.ts] is not among the sources. *)
Record t : Type := mk {
  id : string;
  name : string;
  holes : list Hole.t;
  roundHistory : list Round.t
}.
End Course.

Module PlayerProfile.
(** Modelled from the spec: [types.ts] is not among the sources. *)
Record t : Type := mk { tendencies : list string }.
End PlayerProfile.

Module GolfData.
(** Modelled from the spec: [types.ts] is not among the sources.  A stored
    document may lack [playerProfile]: the provider reads it through
    [|| { tendencies: [] }]. *)
Record t : Type := mk {
  courses : list Course.t;
  playerProfile : option PlayerProfile.t
}.
End GolfData.

(** ** The data provider ([useLocalStorage], [GolfDataProvider]) *)

(** [window.localStorage]: the stored items, and when access fails.  Reading
    throws when [getItem_error] is set (access to storage denied); writing
    throws when [setItem_error] says so for that key and value (quota
    exceeded), and then stores nothing. *)
Module Storage.
Record t : Type := mk {
  items : string -> option string;
  getItem_error : option exn;
  setItem_error : string -> string -> option exn
}.

Definition getItem (st : t) (key : string) : completion (option string) :=
  match getItem_error st with
  | Some e => Throw e
  | None => Normal (items st key)
  end.

Definition setItem (st : t) (key value : string) : t * completion unit :=
  match setItem_error st key value with
  | Some e => (st, Throw e)
  | None =>
      (mk (fun k => if String.eqb k key then Some value else items st k)
          (getItem_error st) (setItem_error st),
       Normal tt)
  end.
End Storage.

(** What the hook reaches outside React: the storage and the console. *)
Record Browser : Type := mkBrowser {
  localStorage : Storage.t;
  console_lines : console
}.

Definition console_error (line : string) : M Browser unit :=
  modify (fun b => mkBrowser (localStorage b) (console_lines b ++ [line])).

Definition localStorage_getItem (key : string) : M Browser (option string) :=
  fun b => (b, Storage.getItem (localStorage b) key).

Definition localStorage_setItem (key value : string) : M Browser unit :=
  fun b =>
    let '(st, c) := Storage.setItem (localStorage b) key value in
    (mkBrowser st (console_lines b), c).

(** Whether [item ? _ : _] takes its first branch, for [item : string | null]. *)
Definition truthy (item : option string) : bool :=
  match item with
  | Some (String _ _) => true
  | Some EmptyString => false
  | None => false
  end.

Section UseLocalStorage.

(** The stored type, and [JSON.parse] and [JSON.stringify] at that type. *)
Variable T : Type.
Variable JSON_parse : string -> completion T.
Variable JSON_stringify : T -> completion string.

(** The hook's state: the React state cell and the browser. *)
Record Hook : Type := mkHook {
  cell : T;
  browser : Browser
}.

(** [React.SetStateAction<T>]: a value, or a function of the previous one. *)
Inductive SetStateAction : Type :=
| Value (v : T)
| Updater (f : T -> T).

Definition in_browser {A : Type} (c : M Browser A) : M Hook A :=
  fun h =>
    let '(b, r) := c (browser h) in
    (mkHook (cell h) b, r).

Definition setStoredValue (v : T) : M Hook unit :=
  modify (fun h => mkHook v (browser h)).

(** The initializer given to [useState] (lines 19 to 27). *)
Definition initialStoredValue (key : string) (initialValue : T) : M Browser T :=
  try_catch
    (item <- localStorage_getItem key ;;
     match item with
     | Some text => if truthy item then lift (JSON_parse text) else ret initialValue
     | None => ret initialValue
     end)%js
    (fun error => console_error error ;;; ret initialValue)%js.

(** [setValue] (lines 29 to 37), as created by a render in which the state
    cell held [storedValue]. *)
Definition setValue (key : string) (storedValue : T) (value : SetStateAction)
  : M Hook unit :=
  try_catch
    (let valueToStore :=
       match value with
       | Updater f => f storedValue
       | Value v => v
       end in
     setStoredValue valueToStore ;;;
     text <- in_browser (lift (JSON_stringify valueToStore)) ;;
     in_browser (localStorage_setItem key text))%js
    (fun error => in_browser (console_error error)).

(** The first render of a component that calls [useLocalStorage]. *)
Definition useLocalStorage (key : string) (initialValue : T) (b : Browser)
  : completion Hook :=
  match initialStoredValue key initialValue b with
  | (b', Normal v) => Normal (mkHook v b')
  | (_, Throw e) => Throw e
  end.

(** An event handler run after the component has rendered again: its
    closures hold the current content of the state cell. *)
Definition rendered {A : Type} (handler : T -> M Hook A) : M Hook A :=
  fun h => handler (cell h) h.

End UseLocalStorage.

Arguments mkHook {T} cell browser.
Arguments cell {T} h.
Arguments browser {T} h.
Arguments Value {T} v.
Arguments Updater {T} f.
Arguments setValue {T} JSON_stringify key storedValue value.
Arguments rendered {T A} handler.

(** The initial value given by [GolfDataProvider] (line 43). *)
Definition initialGolfData : GolfData.t :=
  GolfData.mk [] (Some (PlayerProfile.mk [])).

(** The updater [saveRound] hands to [setGolfData] (lines 58 to 73). *)
Definition saveRound_updater (courseId : string) (round : Round.t)
  : GolfData.t -> GolfData.t :=
  fun prevData =>
    let updatedCourses :=
      map (fun course =>
             if String.eqb (Course.id course) courseId then
               let roundIndex :=
                 findIndex (fun r => String.eqb (Round.date r) (Round.date round))
                           (Course.roundHistory course) in
               let newRoundHistory :=
                 match roundIndex with
                 | Some i => assign (Course.roundHistory course) i round
                 | None => Course.roundHistory course ++ [round]
                 end in
               Course.mk (Course.id course) (Course.name course)
                         (Course.holes course) newRoundHistory
             else course)
          (GolfData.courses prevData) in
    GolfData.mk updatedCourses (GolfData.playerProfile prevData).

(** The updater [addCourseNote] hands to [setGolfData] (lines 77 to 92). *)
Definition addCourseNote_updater (courseId : string) (holeNumber : Z) (note : string)
  : GolfData.t -> GolfData.t :=
  fun prevData =>
    let updatedCourses :=
      map (fun course =>
             if String.eqb (Course.id course) courseId then
               let updatedHoles :=
                 map (fun hole =>
                        if Hole.holeNumber hole =? holeNumber then
                          let newNotes :=
                            match Hole.notes hole with
                            | Some notes => notes
                            | None => []
                            end ++ [note] in
                          Hole.mk (Hole.holeNumber hole) (Hole.par hole)
                                  (Hole.yardage hole) (Some newNotes)
                        else hole)
                     (Course.holes course) in
               Course.mk (Course.id course) (Course.name course)
                         updatedHoles (Course.roundHistory course)
             else course)
          (GolfData.courses prevData) in
    GolfData.mk updatedCourses (GolfData.playerProfile prevData).

(** [prevData.playerProfile || { tendencies: [] }]. *)
Definition profile_or_empty (data : GolfData.t) : PlayerProfile.t :=
  match GolfData.playerProfile data with
  | Some profile => profile
  | None => PlayerProfile.mk []
  end.

(** The updater [addPlayerTendency] hands to [setGolfData] (lines 96 to 101). *)
Definition addPlayerTendency_updater (tendency : string)
  : GolfData.t -> GolfData.t :=
  fun prevData =>
    let profile := profile_or_empty prevData in
    if existsb (String.eqb tendency) (PlayerProfile.tendencies profile)
    then prevData
    else
      let newTendencies := PlayerProfile.tendencies profile ++ [tendency] in
      GolfData.mk (GolfData.courses prevData)
                  (Some (PlayerProfile.mk newTendencies)).

Section GolfDataProvider.

Variable JSON_parse : string -> completion GolfData.t.
Variable JSON_stringify : GolfData.t -> completion string.

(** The provider's state, and its first render (line 43). *)
Definition Provider : Type := Hook GolfData.t.

Definition GolfDataProvider (b : Browser) : completion Provider :=
  useLocalStorage GolfData.t JSON_parse "golfData" initialGolfData b.

(** [setGolfData] of a render in which the state cell held [golfData]. *)
Definition setGolfData (golfData : GolfData.t)
  : SetStateAction GolfData.t -> M Provider unit :=
  setValue JSON_stringify "golfData" golfData.

Definition addCourse (golfData : GolfData.t) (course : Course.t) : M Provider unit :=
  setGolfData golfData
    (Updater (fun prevData =>
                GolfData.mk (GolfData.courses prevData ++ [course])
                            (GolfData.playerProfile prevData))).

Definition saveRound (golfData : GolfData.t) (courseId : string) (round : Round.t)
  : M Provider unit :=
  setGolfData golfData (Updater (saveRound_updater courseId round)).

Definition addCourseNote (golfData : GolfData.t) (courseId : string)
  (holeNumber : Z) (note : string) : M Provider unit :=
  setGolfData golfData (Updater (addCourseNote_updater courseId holeNumber note)).

Definition addPlayerTendency (golfData : GolfData.t) (tendency : string)
  : M Provider unit :=
  setGolfData golfData (Updater (addPlayerTendency_updater tendency)).

End GolfDataProvider.

(** [getCourseById] (lines 104 to 106). *)
Definition getCourseById (golfData : GolfData.t) (courseId : string) : option Course.t :=
  find (fun c => String.eqb (Course.id c) courseId) (GolfData.courses golfData).

(** ** The Gemini bridge ([responseSchema], [buildSystemPrompt],
       [getJpConversationalResponse]) *)

(** The schema objects of [@google/genai], with the fields this code sets. *)
Module Schema.
Inductive Kind : Type := OBJECT | STRING | INTEGER.

Inductive t : Type :=
| mk (type : Kind) (description : option string) (nullable : bool)
     (properties : list (string * t)).

Definition leaf (type : Kind) (description : string) : t :=
  mk type (Some description) true [].

(** Whether a number is an integer. *)
Definition is_integer (x : Number.t) : bool :=
  match x with
  | S754_zero _ => true
  | S754_finite _ m e => if 0 <=? e then true else Zpos m mod 2 ^ (- e) =? 0
  | S754_infinity _ => false
  | S754_nan => false
  end.

(** Whether a JSON value has the shape a schema describes: [null] only where
    the schema is nullable, the declared kind otherwise, and, in an object,
    every declared property that is present of its own schema's shape (the
    schemas here list no required property). *)
Fixpoint conforms (s : t) (v : JSON) : bool :=
  match s with
  | mk type _ nullable properties =>
      match v with
      | JNull => nullable
      | JString _ => match type with STRING => true | _ => false end
      | JNumber x => match type with INTEGER => is_integer x | _ => false end
      | JObject members =>
          match type with
          | OBJECT =>
              (fix each (ps : list (string * t)) : bool :=
                 match ps with
                 | [] => true
                 | (key, sk) :: rest =>
                     match member key members with
                     | Some vk => conforms sk vk
                     | None => true
                     end && each rest
                 end) properties
          | _ => false
          end
      | JBool _ => false
      | JArray _ => false
      end
  end.
End Schema.

(** [responseSchema] (lines 186 to 221). *)
Definition responseSchema : Schema.t :=
  Schema.mk Schema.OBJECT None false
    [ ("conversationalResponse",
       Schema.mk Schema.STRING
         (Some "JP's natural, conversational response to the user. It should be supportive, strategic, and observant, like a real caddie.")
         false []);
      ("extractedData",
       Schema.mk Schema.OBJECT
         (Some "Structured data extracted from the user's latest message. Only populate fields if the user explicitly mentions them. Be conservative.")
         true
         [ ("holeNumber", Schema.leaf Schema.INTEGER "The hole number the user is talking about.");
           ("shotNumber", Schema.leaf Schema.INTEGER "The shot number on the current hole.");
           ("club", Schema.leaf Schema.STRING "The club used for a shot.");
           ("outcome", Schema.leaf Schema.STRING "The outcome of a shot (e.g., 'Fairway', 'Green', 'Bunker').");
           ("scoreOnHole", Schema.leaf Schema.INTEGER "The final score for a specific hole.");
           ("courseNote",
            Schema.leaf Schema.STRING
              "A new insight or feature about the current hole learned from the user's conversation (e.g., 'The green is very fast today', 'The right bunker is a magnet').");
           ("playerTendency",
            Schema.leaf Schema.STRING
              "A new insight about the player's general game, habits, or mental state (e.g., 'Tends to pull 7-iron left when nervous', 'Confidence is high with the driver today').") ]);
      ("audioCue",
       Schema.leaf Schema.STRING
         "Suggest an audio cue to play based on the context. Options: 'discovery', 'update', 'memory', 'achievement', 'log', 'none'. Use 'discovery' for new course notes, 'update' for new player tendencies, and 'log' for shots/scores.") ].

(** *** The prompt builder (lines 223 to 266) *)

(** [filter((h): h is HolePerformance => !!h)]: the entries that are not
    [undefined]. *)
Fixpoint defined {A : Type} (l : list (option A)) : list A :=
  match l with
  | [] => []
  | Some x :: rest => x :: defined rest
  | None :: rest => defined rest
  end.

Definition relevantHistory (course : Course.t) (currentHole : Hole.t)
  : list HolePerformance.t :=
  defined
    (map (fun r =>
            find (fun h => HolePerformance.holeNumber h =? Hole.holeNumber currentHole)
                 (Round.holeByHole r))
         (Course.roundHistory course)).

(** [relevantHistory.reduce((acc, h) => acc + h.score, 0) / relevantHistory.length]. *)
Definition avgScore (relevantHistory : list HolePerformance.t) : Number.t :=
  Number.div
    (fold_left (fun acc h => Number.add acc (Number.of_Z (HolePerformance.score h)))
               relevantHistory (Number.of_Z 0))
    (Number.of_Z (Z.of_nat (List.length relevantHistory))).

Definition historySummary (course : Course.t) (currentHole : Hole.t) : string :=
  let relevantHistory := relevantHistory course currentHole in
  if (0 <? List.length relevantHistory)%nat then
    ("Player has played this hole "
     ++ Number.toString_int (Z.of_nat (List.length relevantHistory))
     ++ " times with an average score of "
     ++ Number.toFixed (avgScore relevantHistory) 2 ++ ".")%string
  else "No previous history on this hole.".

Definition holeNotes (currentHole : Hole.t) : string :=
  match Hole.notes currentHole with
  | Some notes =>
      ("
    - Your organic notes on this hole: " ++ join ", " notes)%string
  | None => EmptyString
  end.

Definition playerTendencies (playerProfile : PlayerProfile.t) : string :=
  if (0 <? List.length (PlayerProfile.tendencies playerProfile))%nat then
    ("
    - General Player Tendencies: "
     ++ join ", " (PlayerProfile.tendencies playerProfile))%string
  else EmptyString.

(** The fixed text of the template literal, cut at its placeholders. *)
Definition prompt_preamble : string :=
  String.concat dq
  [ "You are JP, a professional AI golf caddie. Your personality is supportive, strategic, observant, and always conversational. Your entire existence is based on natural dialogue with a player.

    **Your Conversational Philosophy (Non-Negotiable):**
    - **NEVER Ask for Structured Data:** You are not a data entry bot. Never ask ";
    "What club did you use?";
    " or ";
    "What was the outcome?";
    ". You must learn everything organically from the player's natural conversation.
    - **Be a Conversational Partner:** Your goal is to have a dialogue that feels like walking 18 holes together. Respond to what the player says, ask open-ended questions, and offer thoughts like a real caddie.
    - **Listen and Learn:** Actively listen to the player's stories, complaints, and observations to build your memory. A comment like ";
    "I always end up in that right bunker";
    " is a crucial piece of data for you.
    - **Reference Your Memory:** When relevant, explicitly mention that you are drawing from past rounds, historical data, or learned notes (e.g., 'I remember you said...', 'Based on your 5 previous rounds here...'). This builds the player's trust in your memory.

    **Current Context:**
    - Course: " ].

Definition prompt_on_hole : string :=
  "
    - Currently on: Hole #".

Definition prompt_par : string :=
  " (Par ".

Definition prompt_yardage : string :=
  ", ".

Definition prompt_history : string :=
  " yds)
    - Historical Performance on this hole: ".

Definition prompt_weather : string :=
  "
    - Weather: ".

Definition prompt_instructions : string :=
  String.concat dq
  [ "

    **Example Interactions (Follow this style):**
    - Player: ";
    "Man, I'm standing over this 150-yard shot and there's water short.";
    "
    - You: ";
    "I remember you mentioned you've been pulling your 7-iron a bit when you're nervous. How's this shot feel?";
    "
    - Player: ";
    "Yeah, definitely feeling that. Maybe I'll take a smooth 6.";
    "
    - You (Internal thought -> extract nothing): ";
    "Sounds like a confident play. Let's commit to it.";
    "
    - Player: ";
    "This green is so fast today, way faster than usual.";
    "
    - You (Internal thought -> extract 'courseNote'): ";
    "Good to know, I'll add that to my notes for this hole. We'll have to adjust our strategy on the approaches then.";
    "

    **Your Task:**
    1.  Read the entire conversation history to understand the context.
    2.  Provide a natural, concise, conversational response to the user's LATEST message based on your philosophy and the current context.
    3.  Analyze the user's LATEST message for new, explicitly stated information to learn from. This could be a shot detail, a score, an observation about the course, or a personal tendency.
    4.  Return a JSON object containing your `conversationalResponse`, any `extractedData`, and a suggested `audioCue`.
    5.  Be CONSERVATIVE with data extraction. Only extract what is clearly stated. If they say ";
    "Bad shot";
    ", do not extract anything. If they say ";
    "Hit my 7-iron into the sand";
    ", extract club: '7-Iron' and outcome: 'Bunker'." ].

Definition buildSystemPrompt (course : Course.t) (currentHole : Hole.t)
  (round : Round.t) (playerProfile : PlayerProfile.t) : string :=
  (prompt_preamble ++ Course.name course
   ++ prompt_on_hole ++ Number.toString_int (Hole.holeNumber currentHole)
   ++ prompt_par ++ Number.toString_int (Hole.par currentHole)
   ++ prompt_yardage ++ Number.toString_int (Hole.yardage currentHole)
   ++ prompt_history ++ historySummary course currentHole ++ holeNotes currentHole
   ++ prompt_weather ++ Round.conditions round ++ playerTendencies playerProfile
   ++ prompt_instructions)%string.

(** *** The request and the backend *)

Module Part.
Record t : Type := mk { text : string }.
End Part.

Module Content.
Record t : Type := mk { role : string; parts : list Part.t }.
End Content.

Module Config.
Record t : Type := mk {
  systemInstruction : string;
  responseMimeType : string;
  responseSchema : Schema.t;
  temperature : Number.t
}.
End Config.

Module Request.
Record t : Type := mk {
  model : string;
  contents : list Content.t;
  config : Config.t
}.
End Request.

(** What the code does with a response: [JSON.parse(response.text.trim())],
    which evaluates to a JSON value or throws (no text, or text that is not
    JSON). *)
Module Response.
Record t : Type := mk { parsed_text : completion JSON }.
End Response.

(** A client ([new GoogleGenAI(...)]), by what [models.generateContent]
    answers to a request: a response, or a rejection (the transport or the
    backend failed). *)
Definition GoogleGenAI : Type := Request.t -> completion Response.t.

(** What the bridge reaches: the network and the console. *)
Record Net : Type := mkNet {
  requests : list Request.t;
  net_console : console
}.

Definition net_console_error (line : string) : M Net unit :=
  modify (fun n => mkNet (requests n) (net_console n ++ [line])).

(** [await ai.models.generateContent(request)]: the request goes out. *)
Definition generateContent (ai : GoogleGenAI) (request : Request.t) : M Net Response.t :=
  fun n => (mkNet (requests n ++ [request]) (net_console n), ai request).

(** [API_KEY] (line 174), from [process.env] when there is a [process]. *)
Definition API_KEY (process_env : option (string -> option string)) : option string :=
  match process_env with
  | Some env => env "API_KEY"
  | None => None
  end.

(** The module's initialisation of [ai] (lines 177 to 184), given how a
    client built from a key behaves. *)
Definition ai (connect : string -> GoogleGenAI) (key : option string)
  : option GoogleGenAI * console :=
  match key with
  | Some (String c k) => (Some (connect (String c k)), [])
  | Some EmptyString | None =>
      (None, ["API_KEY environment variable not set. Gemini API calls will fail."])
  end.

(** The reply of line 271. *)
Definition offline_reply : JSON :=
  JObject
    [ ("conversationalResponse",
       JString "JP is currently offline. The AI Caddie is not configured correctly. Please ensure the API key is set in the environment variables.");
      ("extractedData", JNull);
      ("audioCue", JString "none") ].

(** The reply of line 296. *)
Definition fallback_reply : JSON :=
  JObject
    [ ("conversationalResponse",
       JString "There was an issue contacting JP. I'm having trouble thinking right now.");
      ("extractedData", JNull);
      ("audioCue", JString "none") ].

(** [round.conversation.map(...)] (lines 275 to 278). *)
Definition contents_of (round : Round.t) : list Content.t :=
  map (fun msg =>
         Content.mk (if String.eqb (Message.sender msg) "jp" then "model" else "user")
                    [Part.mk (Message.text msg)])
      (Round.conversation round).

(** The argument of [generateContent] (lines 281 to 290); the temperature is
    the double nearest to 0.8. *)
Definition request_for (course : Course.t) (currentHole : Hole.t)
  (round : Round.t) (playerProfile : PlayerProfile.t) : Request.t :=
  let systemInstruction := buildSystemPrompt course currentHole round playerProfile in
  let contents := contents_of round in
  Request.mk "gemini-2.5-flash" contents
    (Config.mk systemInstruction "application/json" responseSchema
               (Number.div (Number.of_Z 8) (Number.of_Z 10))).

Definition getJpConversationalResponse (ai : option GoogleGenAI)
  (course : Course.t) (currentHole : Hole.t) (round : Round.t)
  (playerProfile : PlayerProfile.t) : M Net JSON :=
  match ai with
  | None => ret offline_reply
  | Some ai =>
      try_catch
        (response <-
           generateContent ai (request_for course currentHole round playerProfile) ;;
         lift (Response.parsed_text response))%js
        (fun error =>
           net_console_error ("Error fetching JP's response: " ++ error)%string ;;;
           ret fallback_reply)%js
  end.

(** * Specification-level definitions and sample data *)

(** What [setValue] stores, by the kind of its argument. *)
Definition valueToStore {T : Type} (storedValue : T) (value : SetStateAction T) : T :=
  match value with
  | Updater f => f storedValue
  | Value v => v
  end.

(** Sample data: Pinehurst, hole 7 (par 4, 380 yards), played twice before
    with scores 5 and 3. *)
Definition sample_round (date : string) (holeByHole : list HolePerformance.t) : Round.t :=
  Round.mk date "Sunny, light wind"
    [ Message.mk "player" "Pulled my drive left again.";
      Message.mk "jp" "We have seen that before here. Aim a touch right." ]
    holeByHole.

Definition hole7 : Hole.t := Hole.mk 7 4 380 None.

Definition pinehurst : Course.t :=
  Course.mk "pinehurst" "Pinehurst" [hole7]
    [ sample_round "2024-05-01" [HolePerformance.mk 6 4 None; HolePerformance.mk 7 5 None];
      sample_round "2024-05-08" [HolePerformance.mk 7 3 None] ].

Definition today : Round.t := sample_round "2024-05-15" [].

Definition sample_profile : PlayerProfile.t :=
  PlayerProfile.mk ["Tends to pull the driver left"].

(** The stored document cannot be used: reading the storage throws, there is
    no item under the key, the item is the empty string, or [JSON.parse]
    throws on it. *)
Definition unreadable {T : Type} (JSON_parse : string -> completion T)
  (st : Storage.t) (key : string) : Prop :=
  match Storage.getItem st key with
  | Throw _ => True
  | Normal None => True
  | Normal (Some text) => text = EmptyString \/ exists e, JSON_parse text = Throw e
  end.

(** A storage that cannot be read, one that is empty but full (every write
    is refused), and one holding text that is not JSON. *)
Definition denied_storage : Storage.t :=
  Storage.mk (fun _ => None) (Some "SecurityError") (fun _ _ => None).

Definition full_storage : Storage.t :=
  Storage.mk (fun _ => None) None (fun _ _ => Some "QuotaExceededError").

Definition garbled_storage : Storage.t :=
  Storage.mk (fun key => if String.eqb key "golfData" then Some "{courses:" else None)
             None (fun _ _ => None).

(** Stand-ins for [JSON.parse] and [JSON.stringify] at [GolfData]: a parser
    that rejects every text, and a printer with a fixed output. *)
Definition reject_all (text : string) : completion GolfData.t :=
  Throw "SyntaxError".

Definition print_fixed (data : GolfData.t) : completion string :=
  Normal "{}".

(** The rounds of a history played on a given date. *)
Definition rounds_on (date : string) (history : list Round.t) : list Round.t :=
  filter (fun r => String.eqb (Round.date r) date) history.

(** Two rounds of the same date with different content. *)
Definition morning : Round.t := sample_round "2024-05-08" [HolePerformance.mk 7 4 None].
Definition evening : Round.t := sample_round "2024-05-08" [HolePerformance.mk 7 6 None].

(** A provider holding Pinehurst, on a storage that works. *)
Definition working_storage : Storage.t :=
  Storage.mk (fun _ => None) None (fun _ _ => None).

Definition sample_provider : Provider :=
  mkHook (GolfData.mk [pinehurst] (Some sample_profile))
         (mkBrowser working_storage []).

(** The six audio cues of the Extraction Schema. *)
Definition audio_cues : list string :=
  ["discovery"; "update"; "memory"; "achievement"; "log"; "none"].

(** The reply shape as the spec words it (section 4.4): a value of the
    schema's shape that is an object with a text [conversationalResponse],
    and whose [audioCue], when given, is one of the six cues. *)
Definition reply_shaped (v : JSON) : bool :=
  Schema.conforms responseSchema v
  && match v with
     | JObject members =>
         match member "conversationalResponse" members with
         | Some (JString _) => true
         | _ => false
         end
         && match member "audioCue" members with
            | Some (JString cue) => existsb (String.eqb cue) audio_cues
            | Some JNull => true
            | None => true
            | Some _ => false
            end
     | _ => false
     end.

(** What the bridge answers, by the backend's behaviour. *)
Definition expected_reply (ai : option GoogleGenAI) (request : Request.t) : JSON :=
  match ai with
  | None => offline_reply
  | Some client =>
      match client request with
      | Throw _ => fallback_reply
      | Normal response =>
          match Response.parsed_text response with
          | Throw _ => fallback_reply
          | Normal v => v
          end
      end
  end.

(** A JSON reply that is not of the schema's shape:
    [{ conversationalResponse: 42 }]. *)
Definition malformed_reply : JSON :=
  JObject [("conversationalResponse", JNumber (Number.of_Z 42))].

(** Backends: one that answers the malformed reply, one that answers a
    well-formed reply with two extracted facts, one whose transport fails,
    and one whose reply is not JSON. *)
Definition careless_backend : GoogleGenAI :=
  fun _ => Normal (Response.mk (Normal malformed_reply)).

Definition extracting_reply : JSON :=
  JObject
    [ ("conversationalResponse", JString "Sand happens. Let us get it up and down.");
      ("extractedData", JObject [("club", JString "7-Iron"); ("outcome", JString "Bunker")]);
      ("audioCue", JString "log") ].

Definition extracting_backend : GoogleGenAI :=
  fun _ => Normal (Response.mk (Normal extracting_reply)).

Definition unreachable_backend : GoogleGenAI :=
  fun _ => Throw "TypeError: Failed to fetch".

Definition babbling_backend : GoogleGenAI :=
  fun _ => Normal (Response.mk (Throw "SyntaxError: Unexpected token")).

Definition quiet : Net := mkNet [] [].

(** [String.prototype.includes]. *)
Fixpoint includes (needle hay : string) : bool :=
  String.prefix needle hay
  || match hay with
     | EmptyString => false
     | String _ rest => includes needle rest
     end.

(** Hole 7 with a notes list that is present and empty. *)
Definition hole7_no_notes_yet : Hole.t := Hole.mk 7 4 380 (Some []).

(** *** The historical aggregator, as the spec words it *)

Definition on_hole (holeNumber : Z) (h : HolePerformance.t) : bool :=
  HolePerformance.holeNumber h =? holeNumber.

(** Every performance of the round history with the hole number, in order. *)
Definition matching_entries (course : Course.t) (holeNumber : Z)
  : list HolePerformance.t :=
  filter (on_hole holeNumber) (flat_map Round.holeByHole (Course.roundHistory course)).

(** The first performance with the hole number of each round that has one. *)
Definition first_of_each_round (course : Course.t) (holeNumber : Z)
  : list HolePerformance.t :=
  flat_map (fun r => firstn 1 (filter (on_hole holeNumber) (Round.holeByHole r)))
           (Course.roundHistory course).

(** No round lists the hole more than once. *)
Definition listed_once (course : Course.t) (holeNumber : Z) : Prop :=
  Forall (fun r =>
            (List.length (filter (on_hole holeNumber) (Round.holeByHole r)) <= 1)%nat)
         (Course.roundHistory course).

(** The mean of integer scores as the code computes it: a sum and a quotient
    of doubles. *)
Definition mean (scores : list Z) : Number.t :=
  Number.div
    (fold_left (fun acc s => Number.add acc (Number.of_Z s)) scores (Number.of_Z 0))
    (Number.of_Z (Z.of_nat (List.length scores))).

(** The summary sentence for a list of scores. *)
Definition summary_sentence (scores : list Z) : string :=
  match scores with
  | [] => "No previous history on this hole."
  | _ :: _ =>
      ("Player has played this hole "
       ++ Number.digits (Z.of_nat (List.length scores))
       ++ " times with an average score of "
       ++ Number.toFixed (mean scores) 2 ++ ".")%string
  end.

(** The exact sum, and the exact mean in hundredths rounded to the nearest
    integer, upwards from a half: [floor (100 * sum / n + 1/2)]. *)
Definition total (scores : list Z) : Z := fold_right Z.add 0 scores.

Definition rounded_mean_cents (scores : list Z) : Z :=
  let n := Z.of_nat (List.length scores) in
  (2 * 100 * total scores + n) / (2 * n).

(** A course whose only round lists hole 7 twice, with scores 5 and 3. *)
Definition doubled : Course.t :=
  Course.mk "pinehurst" "Pinehurst" [hole7]
    [ sample_round "2024-05-01" [HolePerformance.mk 7 5 None; HolePerformance.mk 7 3 None] ].

(** A course with forty rounds on hole 7: twenty-seven threes and thirteen
    twos, 107 strokes in all. *)
Definition forty_rounds : Course.t :=
  Course.mk "pinehurst" "Pinehurst" [hole7]
    (repeat (sample_round "2024-05-01" [HolePerformance.mk 7 3 None]) 27
     ++ repeat (sample_round "2024-05-02" [HolePerformance.mk 7 2 None]) 13).

(** *** Checks of double arithmetic on small integers *)

Definition range (lo : Z) (len : nat) : list Z :=
  map (fun i => lo + Z.of_nat i) (seq 0 len).

Definition SF_eqb (x y : spec_float) : bool :=
  match x, y with
  | S754_zero a, S754_zero b => Bool.eqb a b
  | S754_infinity a, S754_infinity b => Bool.eqb a b
  | S754_nan, S754_nan => true
  | S754_finite a m e, S754_finite b m' e' => Bool.eqb a b && Pos.eqb m m' && (e =? e')
  | _, _ => false
  end.

(** Adding the integers [a] and [b] in doubles gives their sum. *)
Definition add_exact (a b : Z) : bool :=
  SF_eqb (Number.add (Number.of_Z a) (Number.of_Z b)) (Number.of_Z (a + b)).

(** The double quotient of the integers [S] and [n] is not negative, is
    below [10^21], and has the exact quotient rounded to hundredths as its
    nearest number of hundredths. *)
Definition cents_agree (S n : Z) : bool :=
  match Number.div (Number.of_Z S) (Number.of_Z n) with
  | S754_zero _ => (2 * 100 * S + n) / (2 * n) =? 0
  | S754_finite false m e =>
      negb (Number.ge_1e21 m e)
      && (Number.nearest_scaled m e 2 =? (2 * 100 * S + n) / (2 * n))
  | _ => false
  end.

(** * Sessions of mutator calls *)

(** A call of one of the provider's four mutators. *)
Inductive Action : Type :=
| AddCourse (course : Course.t)
| SaveRound (courseId : string) (round : Round.t)
| AddCourseNote (courseId : string) (holeNumber : Z) (note : string)
| AddPlayerTendency (tendency : string).

(** The updater [addCourse] hands to [setGolfData] (lines 51 to 54). *)
Definition addCourse_updater (course : Course.t) : GolfData.t -> GolfData.t :=
  fun prevData =>
    GolfData.mk (GolfData.courses prevData ++ [course])
                (GolfData.playerProfile prevData).

(** The updater a call hands to [setGolfData]. *)
Definition updater_of (a : Action) : GolfData.t -> GolfData.t :=
  match a with
  | AddCourse course => addCourse_updater course
  | SaveRound courseId round => saveRound_updater courseId round
  | AddCourseNote courseId holeNumber note => addCourseNote_updater courseId holeNumber note
  | AddPlayerTendency tendency => addPlayerTendency_updater tendency
  end.

(** A call made through the closures of a render that saw [golfData]. *)
Definition call (JSON_stringify : GolfData.t -> completion string)
  (golfData : GolfData.t) (a : Action) : M Provider unit :=
  match a with
  | AddCourse course => addCourse JSON_stringify golfData course
  | SaveRound courseId round => saveRound JSON_stringify golfData courseId round
  | AddCourseNote courseId holeNumber note =>
      addCourseNote JSON_stringify golfData courseId holeNumber note
  | AddPlayerTendency tendency => addPlayerTendency JSON_stringify golfData tendency
  end.

(** A call made after the component has rendered again. *)
Definition perform (JSON_stringify : GolfData.t -> completion string) (a : Action)
  : M Provider unit :=
  rendered (fun golfData => call JSON_stringify golfData a).

(** A session: calls one after the other, each after a render. *)
Fixpoint session (JSON_stringify : GolfData.t -> completion string)
  (actions : list Action) : M Provider unit :=
  match actions with
  | [] => ret tt
  | a :: rest => (perform JSON_stringify a ;;; session JSON_stringify rest)%js
  end.

(** The state a session leads to, were every call to take effect. *)
Definition replay (actions : list Action) (data : GolfData.t) : GolfData.t :=
  fold_left (fun d a => updater_of a d) actions data.

(** [l1] is the beginning of [l2]. *)
Definition begins {A : Type} (l1 l2 : list A) : Prop :=
  exists rest, l2 = l1 ++ rest.

(** [hole.notes || []]. *)
Definition notes_or_empty (hole : Hole.t) : list string :=
  match Hole.notes hole with
  | Some notes => notes
  | None => []
  end.

(** A hole that has only gained notes. *)
Definition hole_grown (before after : Hole.t) : Prop :=
  Hole.holeNumber after = Hole.holeNumber before
  /\ Hole.par after = Hole.par before
  /\ Hole.yardage after = Hole.yardage before
  /\ begins (notes_or_empty before) (notes_or_empty after).

(** A course that has kept its identity and holes, and whose history has
    kept its dates, in order, with perhaps more after them. *)
Definition course_grown (before after : Course.t) : Prop :=
  Course.id after = Course.id before
  /\ Course.name after = Course.name before
  /\ Forall2 hole_grown (Course.holes before) (Course.holes after)
  /\ begins (map Round.date (Course.roundHistory before))
            (map Round.date (Course.roundHistory after)).

(** A state that has only grown: the courses it had are still there, in
    order and grown, perhaps followed by new ones, and the tendencies it had
    are the beginning of those it has. *)
Definition data_grown (before after : GolfData.t) : Prop :=
  (exists kept added,
      GolfData.courses after = kept ++ added
      /\ Forall2 course_grown (GolfData.courses before) kept)
  /\ begins (PlayerProfile.tendencies (profile_or_empty before))
            (PlayerProfile.tendencies (profile_or_empty after)).

(** The rounds of a history that list a hole. *)
Definition rounds_listing (holeNumber : Z) (history : list Round.t) : list Round.t :=
  filter (fun r => existsb (on_hole holeNumber) (Round.holeByHole r)) history.

(** Sample data for the sessions. *)
Definition augusta : Course.t :=
  Course.mk "augusta" "Augusta National" [Hole.mk 12 3 155 (Some ["Swirling wind"])] [].

Definition pinehurst_again : Course.t :=
  Course.mk "pinehurst" "Pinehurst No. 2" [] [].

Definition later : Round.t :=
  sample_round "2024-06-01" [HolePerformance.mk 7 4 None; HolePerformance.mk 7 9 None].

Definition elsewhere : Round.t :=
  sample_round "2024-06-02" [HolePerformance.mk 8 4 None].

(** A history with two rounds of the same date. *)
Definition twice_a_day : Course.t :=
  Course.mk "pinehurst" "Pinehurst" [hole7]
    [ morning; sample_round "2024-05-09" []; evening ].

(** A printer and a parser that are inverse on one document. *)
Definition print_sample (data : GolfData.t) : completion string :=
  Normal "{sample}".

Definition parse_sample (text : string) : completion GolfData.t :=
  if String.eqb text "{sample}" then Normal (GolfData.mk [pinehurst] (Some sample_profile))
  else Throw "SyntaxError".


(** A third round of the day. *)
Definition afternoon : Round.t := sample_round "2024-05-08" [HolePerformance.mk 7 2 None].

(** A provider holding the course with two rounds of one day. *)
Definition busy_provider : Provider :=
  mkHook (GolfData.mk [twice_a_day] None) (mkBrowser working_storage []).

(** A hole whose notes list, when present, is not empty. *)
Definition hole_noted (hole : Hole.t) : Prop := Hole.notes hole <> Some [].

Definition course_noted (course : Course.t) : Prop :=
  Forall hole_noted (Course.holes course).

Definition data_noted (data : GolfData.t) : Prop :=
  Forall course_noted (GolfData.courses data).

(** A call that brings no hole with a present, empty notes list. *)
Definition action_noted (a : Action) : Prop :=
  match a with
  | AddCourse course => course_noted course
  | _ => True
  end.

(** Pinehurst with another identifier, holes and current round. *)
Definition pinehurst_renamed : Course.t :=
  Course.mk "p2" "Pinehurst" [] (Course.roundHistory pinehurst).

Definition today_played : Round.t :=
  Round.mk "2024-05-16" "Sunny, light wind"
    [Message.mk "player" "Made a ten on seven."]
    [HolePerformance.mk 7 10 None].

(** A provider holding two courses with the same identifier. *)
Definition twin_provider : Provider :=
  mkHook (GolfData.mk [pinehurst; pinehurst_again] (Some sample_profile))
         (mkBrowser working_storage []).

(** * Properties *)

(** ** The data provider *)

Section SetValue.

Variable T : Type.
Variable JSON_stringify : T -> completion string.

(** [setValue] always completes normally and leaves the value to store in
    the state cell, whatever [JSON.stringify] and the storage do. *)
Lemma setValue_cell :
  forall (key : string) (storedValue : T) (value : SetStateAction T) (h : Hook T),
    cell (fst (setValue JSON_stringify key storedValue value h))
    = valueToStore storedValue value
    /\ snd (setValue JSON_stringify key storedValue value h) = Normal tt.
Proof.
  intros key storedValue value h.
  unfold setValue, try_catch, bind, setStoredValue, modify, in_browser, lift,
    localStorage_setItem, console_error, valueToStore.
  cbn.
  destruct (JSON_stringify _) as [text | e]; cbn.
  - destruct (Storage.setItem _ key text) as [st [[] | e]]; cbn; split; reflexivity.
  - split; reflexivity.
Qed.

(** A handler run after a render applies its updater to the current cell. *)
Lemma rendered_setValue_cell :
  forall (key : string) (f : T -> T) (h : Hook T),
    cell (fst (rendered (fun v => setValue JSON_stringify key v (Updater f)) h))
    = f (cell h)
    /\ snd (rendered (fun v => setValue JSON_stringify key v (Updater f)) h) = Normal tt.
Proof.
  intros key f h.
  unfold rendered.
  apply (setValue_cell key (cell h) (Updater f) h).
Qed.

End SetValue.

(** ** Numbers *)

(** [toFixed] rounds to the nearest multiple of [10^-f]: the integer it
    prints is within a half of [m * 2^e * 10^f], and above when exactly
    between two. *)
Lemma nearest_scaled_nearest :
  forall (m : positive) (e : Z) (f : nat),
    e < 0 ->
    let n := Number.nearest_scaled m e f in
    let den := 2 ^ (- e) in
    let num := Zpos m * 10 ^ Z.of_nat f in
    2 * (n * den) - den <= 2 * num < 2 * (n * den) + den.
Proof.
  intros m e f He n den num.
  assert (Hden : 0 < den) by (subst den; apply Z.pow_pos_nonneg; lia).
  subst n. unfold Number.nearest_scaled.
  destruct (Z.leb_spec 0 e) as [Hle | _]; [lia |].
  fold num. fold den.
  pose proof (Z.div_mod (2 * num + den) (2 * den) ltac:(lia)) as Hdm.
  pose proof (Z.mod_pos_bound (2 * num + den) (2 * den) ltac:(lia)) as Hmod.
  nia.
Qed.

Lemma nearest_scaled_integer :
  forall (m : positive) (e : Z) (f : nat),
    0 <= e ->
    Number.nearest_scaled m e f = Zpos m * 10 ^ Z.of_nat f * 2 ^ e.
Proof.
  intros m e f He. unfold Number.nearest_scaled.
  destruct (Z.leb_spec 0 e) as [_ | Hlt]; [reflexivity | lia].
Qed.

(** Samples of [toFixed(2)], and of the temperature literal. *)
Lemma toFixed_samples :
  Number.toFixed (Number.div (Number.of_Z 8) (Number.of_Z 2)) 2 = "4.00"
  /\ Number.toFixed (Number.div (Number.of_Z 1) (Number.of_Z 8)) 2 = "0.13"
  /\ Number.toFixed (Number.div (Number.of_Z 2) (Number.of_Z 3)) 2 = "0.67"
  /\ Number.toFixed (Number.div (Number.of_Z (-1)) (Number.of_Z 3)) 2 = "-0.33"
  /\ Number.toFixed (Number.div (Number.of_Z 201) (Number.of_Z 200)) 2 = "1.00"
  /\ Number.toFixed (Number.of_Z (2 ^ 70)) 2 = "1.1805916207174113e+21"
  /\ Number.toFixed (Number.div (Number.of_Z 1) (Number.of_Z 0)) 2 = "Infinity"
  /\ Number.toFixed (Number.div (Number.of_Z 8) (Number.of_Z 10)) 1 = "0.8".
Proof.
  repeat split; vm_compute; reflexivity.
Qed.

Section UseLocalStorageFacts.

Variable T : Type.
Variable JSON_parse : string -> completion T.
Variable JSON_stringify : T -> completion string.

(** The initializer of the state cell never throws, and yields the initial
    value when the stored document cannot be used. *)
Lemma initialStoredValue_unreadable :
  forall (key : string) (initialValue : T) (b : Browser),
    unreadable JSON_parse (localStorage b) key ->
    exists b',
      initialStoredValue T JSON_parse key initialValue b = (b', Normal initialValue)
      /\ localStorage b' = localStorage b.
Proof.
  intros key initialValue b Hun.
  unfold unreadable in Hun.
  unfold initialStoredValue, try_catch, bind, localStorage_getItem, console_error,
    modify, ret, lift.
  destruct (Storage.getItem (localStorage b) key) as [[text |] | e]; cbn.
  - destruct Hun as [Hempty | [e He]].
    + subst text. cbn. eexists. split; reflexivity.
    + destruct text as [| c text]; cbn.
      * eexists. split; reflexivity.
      * rewrite He. eexists. split; reflexivity.
  - eexists. split; reflexivity.
  - eexists. split; reflexivity.
Qed.

Lemma initialStoredValue_total :
  forall (key : string) (initialValue : T) (b : Browser),
    exists b' v, initialStoredValue T JSON_parse key initialValue b = (b', Normal v).
Proof.
  intros key initialValue b.
  unfold initialStoredValue, try_catch, bind, localStorage_getItem, console_error,
    modify, ret, lift.
  destruct (Storage.getItem (localStorage b) key) as [[[| c text] |] | e]; cbn;
    try (do 2 eexists; reflexivity).
  destruct (JSON_parse (String c text)) as [v | e]; do 2 eexists; reflexivity.
Qed.

(** When the write is refused, [setValue] has already set the state cell; it
    logs the error and completes normally, and the storage keeps what it
    had. *)
Lemma setValue_write_refused :
  forall (key : string) (storedValue : T) (value : SetStateAction T) (h : Hook T)
         (text : string) (e : exn),
    JSON_stringify (valueToStore storedValue value) = Normal text ->
    Storage.setItem_error (localStorage (browser h)) key text = Some e ->
    setValue JSON_stringify key storedValue value h
    = (mkHook (valueToStore storedValue value)
              (mkBrowser (localStorage (browser h))
                         (console_lines (browser h) ++ [e])),
       Normal tt).
Proof.
  intros key storedValue value h text e Htext Hrefused.
  unfold setValue, try_catch, bind, setStoredValue, modify, in_browser, lift,
    localStorage_setItem, console_error.
  fold (valueToStore storedValue value).
  cbn.
  rewrite Htext. cbn.
  unfold Storage.setItem. rewrite Hrefused. cbn.
  reflexivity.
Qed.

End UseLocalStorageFacts.

(** C9. A persistence read failure, or an absent or unparsable stored
    document, never crashes the provider: it starts from the initial empty
    state [{courses: [], playerProfile: {tendencies: []}}].  A persistence
    write failure leaves the value being set in the in-memory state; the
    failure is logged, not raised. *)
Theorem persistence_failures_contained :
  forall (JSON_parse : string -> completion GolfData.t)
         (JSON_stringify : GolfData.t -> completion string),
    (forall b : Browser,
        unreadable JSON_parse (localStorage b) "golfData" ->
        exists b',
          GolfDataProvider JSON_parse b = Normal (mkHook initialGolfData b')
          /\ localStorage b' = localStorage b)
    /\
    (forall (golfData : GolfData.t) (value : SetStateAction GolfData.t)
            (h : Provider) (text : string) (e : exn),
        JSON_stringify (valueToStore golfData value) = Normal text ->
        Storage.setItem_error (localStorage (browser h)) "golfData" text = Some e ->
        setGolfData JSON_stringify golfData value h
        = (mkHook (valueToStore golfData value)
                  (mkBrowser (localStorage (browser h))
                             (console_lines (browser h) ++ [e])),
           Normal tt)).
Proof.
  intros JSON_parse JSON_stringify. split.
  - intros b Hun.
    destruct (initialStoredValue_unreadable GolfData.t JSON_parse
                "golfData" initialGolfData b Hun) as [b' [Hinit Hstorage]].
    exists b'. split; [| exact Hstorage].
    unfold GolfDataProvider, useLocalStorage. rewrite Hinit. reflexivity.
  - intros golfData value h text e Htext Hrefused.
    unfold setGolfData.
    apply (setValue_write_refused GolfData.t JSON_stringify "golfData"
             golfData value h text e Htext Hrefused).
Qed.

Lemma persistence_failures_contained_witness :
  (exists b',
      GolfDataProvider reject_all (mkBrowser denied_storage []) = Normal (mkHook initialGolfData b')
      /\ localStorage b' = denied_storage)
  /\ (exists b',
      GolfDataProvider reject_all (mkBrowser garbled_storage []) = Normal (mkHook initialGolfData b')
      /\ localStorage b' = garbled_storage)
  /\ setGolfData print_fixed initialGolfData
       (Value (GolfData.mk [pinehurst] None))
       (mkHook initialGolfData (mkBrowser full_storage []))
     = (mkHook (GolfData.mk [pinehurst] None)
               (mkBrowser full_storage ["QuotaExceededError"]),
        Normal tt).
Proof.
  split; [| split].
  - apply (proj1 (persistence_failures_contained reject_all print_fixed)
             (mkBrowser denied_storage [])).
    exact I.
  - apply (proj1 (persistence_failures_contained reject_all print_fixed)
             (mkBrowser garbled_storage [])).
    right. exists "SyntaxError". reflexivity.
  - apply (proj2 (persistence_failures_contained reject_all print_fixed)
             initialGolfData (Value (GolfData.mk [pinehurst] None))
             (mkHook initialGolfData (mkBrowser full_storage []))
             "{}" "QuotaExceededError"); reflexivity.
Defined.

(** ** Lists as the mutators use them *)

Section ListFacts.

Variable A : Type.
Variable p : A -> bool.

Lemma findIndex_None_filter :
  forall l : list A, findIndex p l = None -> filter p l = [].
Proof.
  induction l as [| x l IH]; cbn; intros Hnone.
  - reflexivity.
  - destruct (p x) eqn:Hpx.
    + discriminate Hnone.
    + destruct (findIndex p l) as [i |]; [discriminate Hnone |].
      apply IH. reflexivity.
Qed.

(** Assigning at the index [findIndex] returns replaces the first element
    that satisfies the test. *)
Lemma findIndex_Some_assign :
  forall (l : list A) (i : nat) (x : A),
    findIndex p l = Some i -> p x = true ->
    filter p (assign l i x) = x :: tl (filter p l).
Proof.
  induction l as [| y l IH]; cbn; intros i x Hfound Hpx.
  - discriminate Hfound.
  - destruct (p y) eqn:Hpy.
    + injection Hfound as <-. cbn. rewrite Hpx. reflexivity.
    + destruct (findIndex p l) as [j |] eqn:Hj; [| discriminate Hfound].
      injection Hfound as <-. cbn. rewrite Hpy.
      apply IH; [reflexivity | exact Hpx].
Qed.

Lemma filter_push :
  forall (l : list A) (x : A), p x = true -> filter p (l ++ [x]) = filter p l ++ [x].
Proof.
  intros l x Hpx. rewrite filter_app. cbn. rewrite Hpx. reflexivity.
Qed.

(** Replace-or-append leaves exactly the new element among those that
    satisfy the test, when at most one did before. *)
Lemma upsert_single :
  forall (l : list A) (x : A),
    p x = true -> (List.length (filter p l) <= 1)%nat ->
    filter p match findIndex p l with
             | Some i => assign l i x
             | None => l ++ [x]
             end = [x].
Proof.
  intros l x Hpx Hcount.
  destruct (findIndex p l) as [i |] eqn:Hfound.
  - rewrite (findIndex_Some_assign l i x Hfound Hpx).
    destruct (filter p l) as [| y [| z rest]]; cbn in *; try reflexivity; lia.
  - rewrite (filter_push l x Hpx).
    rewrite (findIndex_None_filter l Hfound). reflexivity.
Qed.

Lemma map_unchanged :
  forall (f : A -> A) (l : list A),
    (forall x, In x l -> f x = x) -> map f l = l.
Proof.
  intros f l Hf. induction l as [| x l IH]; cbn.
  - reflexivity.
  - rewrite (Hf x (or_introl eq_refl)). f_equal.
    apply IH. intros y Hy. apply Hf. right. exact Hy.
Qed.

End ListFacts.

(** ** The updaters *)

(** What [saveRound] does to a course it matches. *)
Lemma saveRound_updater_course :
  forall (courseId : string) (round : Round.t) (data : GolfData.t)
         (i : nat) (course : Course.t),
    nth_error (GolfData.courses data) i = Some course ->
    Course.id course = courseId ->
    (List.length (rounds_on (Round.date round) (Course.roundHistory course)) <= 1)%nat ->
    exists course',
      nth_error (GolfData.courses (saveRound_updater courseId round data)) i = Some course'
      /\ Course.id course' = Course.id course
      /\ Course.name course' = Course.name course
      /\ Course.holes course' = Course.holes course
      /\ rounds_on (Round.date round) (Course.roundHistory course') = [round].
Proof.
  intros courseId round data i course Hnth Hid Hcount.
  unfold saveRound_updater. cbn.
  rewrite nth_error_map, Hnth. cbn.
  rewrite Hid, String.eqb_refl.
  eexists. split; [reflexivity |]. cbn.
  repeat split.
  unfold rounds_on in *.
  apply upsert_single; [apply String.eqb_refl | exact Hcount].
Qed.

Lemma saveRound_updater_playerProfile :
  forall (courseId : string) (round : Round.t) (data : GolfData.t),
    GolfData.playerProfile (saveRound_updater courseId round data)
    = GolfData.playerProfile data.
Proof. reflexivity. Qed.

(** [saveRound] with an identifier no course has changes nothing. *)
Lemma saveRound_updater_unknown :
  forall (courseId : string) (round : Round.t) (data : GolfData.t),
    (forall course, In course (GolfData.courses data) -> Course.id course <> courseId) ->
    saveRound_updater courseId round data = data.
Proof.
  intros courseId round [courses profile] Hnone.
  unfold saveRound_updater. cbn in *.
  f_equal. apply map_unchanged.
  intros course Hin.
  destruct (String.eqb_spec (Course.id course) courseId) as [Heq | Hneq].
  - exfalso. exact (Hnone course Hin Heq).
  - reflexivity.
Qed.

(** [addCourseNote] changes nothing when no hole of a course with the given
    identifier has the given number (in particular when no course has that
    identifier). *)
Lemma addCourseNote_updater_unknown :
  forall (courseId : string) (holeNumber : Z) (note : string) (data : GolfData.t),
    (forall course, In course (GolfData.courses data) ->
                    Course.id course = courseId ->
                    forall hole, In hole (Course.holes course) ->
                                 Hole.holeNumber hole <> holeNumber) ->
    addCourseNote_updater courseId holeNumber note data = data.
Proof.
  intros courseId holeNumber note [courses profile] Hnone.
  unfold addCourseNote_updater. cbn in *.
  f_equal. apply map_unchanged.
  intros course Hin.
  destruct (String.eqb_spec (Course.id course) courseId) as [Heq | Hneq];
    [| reflexivity].
  destruct course as [id name holes history]. cbn in *.
  f_equal. apply map_unchanged.
  intros hole Hhole.
  destruct (Z.eqb_spec (Hole.holeNumber hole) holeNumber) as [Hsame | Hother].
  - exfalso. exact (Hnone _ Hin Heq hole Hhole Hsame).
  - reflexivity.
Qed.

(** Occurrences of a tendency after [addPlayerTendency]. *)
Lemma addPlayerTendency_updater_count :
  forall (tendency : string) (data : GolfData.t),
    NoDup (PlayerProfile.tendencies (profile_or_empty data)) ->
    count_occ string_dec
      (PlayerProfile.tendencies (profile_or_empty (addPlayerTendency_updater tendency data)))
      tendency = 1%nat.
Proof.
  intros tendency data Hnodup.
  unfold addPlayerTendency_updater.
  destruct (existsb (String.eqb tendency) (PlayerProfile.tendencies (profile_or_empty data)))
    eqn:Hknown.
  - apply existsb_exists in Hknown. destruct Hknown as [t [Hin Heq]].
    apply String.eqb_eq in Heq. subst t.
    apply (proj1 (NoDup_count_occ' string_dec _) Hnodup). exact Hin.
  - cbn. rewrite count_occ_app. cbn.
    destruct (string_dec tendency tendency) as [_ | Hneq]; [| congruence].
    assert (Hnotin : ~ In tendency (PlayerProfile.tendencies (profile_or_empty data))).
    { intros Hin.
      assert (Htrue : existsb (String.eqb tendency)
                        (PlayerProfile.tendencies (profile_or_empty data)) = true).
      { apply existsb_exists. exists tendency. split; [exact Hin | apply String.eqb_refl]. }
      congruence. }
    rewrite (proj1 (count_occ_not_In string_dec _ _) Hnotin). reflexivity.
Qed.

(** A tendency already present is rejected: the state is returned as it is. *)
Lemma addPlayerTendency_updater_known :
  forall (tendency : string) (data : GolfData.t),
    In tendency (PlayerProfile.tendencies (profile_or_empty data)) ->
    addPlayerTendency_updater tendency data = data.
Proof.
  intros tendency data Hin.
  unfold addPlayerTendency_updater.
  assert (Htrue : existsb (String.eqb tendency)
                    (PlayerProfile.tendencies (profile_or_empty data)) = true).
  { apply existsb_exists. exists tendency. split; [exact Hin | apply String.eqb_refl]. }
  rewrite Htrue. reflexivity.
Qed.

(** After [addPlayerTendency] the tendency is present. *)
Lemma addPlayerTendency_updater_In :
  forall (tendency : string) (data : GolfData.t),
    In tendency
       (PlayerProfile.tendencies (profile_or_empty (addPlayerTendency_updater tendency data))).
Proof.
  intros tendency data.
  unfold addPlayerTendency_updater.
  destruct (existsb (String.eqb tendency) (PlayerProfile.tendencies (profile_or_empty data)))
    eqn:Hknown.
  - apply existsb_exists in Hknown. destruct Hknown as [t [Hin Heq]].
    apply String.eqb_eq in Heq. subst t. exact Hin.
  - cbn. apply in_or_app. right. left. reflexivity.
Qed.

(** ** The provider's mutators *)

Section Mutators.

Variable T : Type.
Variable JSON_stringify : T -> completion string.

(** One call of a mutator after a render. *)
Lemma rendered_once :
  forall (key : string) (f : T -> T) (h : Hook T),
    exists b,
      rendered (fun v => setValue JSON_stringify key v (Updater f)) h
      = (mkHook (f (cell h)) b, Normal tt).
Proof.
  intros key f h.
  destruct (rendered_setValue_cell T JSON_stringify key f h) as [Hcell Hdone].
  destruct (rendered _ h) as [[c b] r]. cbn in Hcell, Hdone. subst c r.
  exists b. reflexivity.
Qed.

(** Two calls, with a render in between: the updaters compose. *)
Lemma rendered_twice :
  forall (key : string) (f1 f2 : T -> T) (h : Hook T),
    exists b,
      (rendered (fun v => setValue JSON_stringify key v (Updater f1)) ;;;
       rendered (fun v => setValue JSON_stringify key v (Updater f2)))%js h
      = (mkHook (f2 (f1 (cell h))) b, Normal tt).
Proof.
  intros key f1 f2 h.
  unfold bind.
  destruct (rendered_once key f1 h) as [b1 H1]. rewrite H1.
  destruct (rendered_once key f2 (mkHook (f1 (cell h)) b1)) as [b2 H2].
  rewrite H2. exists b2. reflexivity.
Qed.

(** Two calls within one render both start from the state that render saw:
    the second overrides the first. *)
Lemma same_render_twice :
  forall (key : string) (f1 f2 : T -> T) (h : Hook T),
    exists b,
      rendered (fun v => setValue JSON_stringify key v (Updater f1) ;;;
                         setValue JSON_stringify key v (Updater f2))%js h
      = (mkHook (f2 (cell h)) b, Normal tt).
Proof.
  intros key f1 f2 h.
  unfold rendered, bind.
  destruct (setValue_cell T JSON_stringify key (cell h) (Updater f1) h) as [_ Hdone1].
  destruct (setValue JSON_stringify key (cell h) (Updater f1) h) as [h1 r1].
  cbn in Hdone1. subst r1.
  destruct (setValue_cell T JSON_stringify key (cell h) (Updater f2) h1) as [Hcell2 Hdone2].
  destruct (setValue JSON_stringify key (cell h) (Updater f2) h1) as [[c2 b2] r2].
  cbn in Hcell2, Hdone2. subst c2 r2.
  exists b2. reflexivity.
Qed.

End Mutators.

(** C5. Round upsert replaces, it does not append: for a course whose round
    history holds at most one round of a given date, calling [saveRound]
    twice with that course's identifier and a round of that date leaves the
    history with exactly one round of that date, the one saved last. *)
Theorem saveRound_twice_replaces :
  forall (JSON_stringify : GolfData.t -> completion string) (h : Provider)
         (courseId : string) (first second : Round.t) (i : nat) (course : Course.t),
    Round.date first = Round.date second ->
    nth_error (GolfData.courses (cell h)) i = Some course ->
    Course.id course = courseId ->
    (List.length (rounds_on (Round.date second) (Course.roundHistory course)) <= 1)%nat ->
    exists (h' : Provider) (course' : Course.t),
      (rendered (fun golfData => saveRound JSON_stringify golfData courseId first) ;;;
       rendered (fun golfData => saveRound JSON_stringify golfData courseId second))%js h
      = (h', Normal tt)
      /\ nth_error (GolfData.courses (cell h')) i = Some course'
      /\ rounds_on (Round.date second) (Course.roundHistory course') = [second]
      /\ Course.id course' = Course.id course
      /\ Course.name course' = Course.name course
      /\ Course.holes course' = Course.holes course.
Proof.
  intros JSON_stringify h courseId first second i course Hdate Hnth Hid Hcount.
  unfold saveRound, setGolfData.
  destruct (rendered_twice GolfData.t JSON_stringify "golfData"
              (saveRound_updater courseId first) (saveRound_updater courseId second) h)
    as [b Hrun].
  rewrite <- Hdate in Hcount.
  destruct (saveRound_updater_course courseId first (cell h) i course Hnth Hid Hcount)
    as [course1 [Hnth1 [Hid1 [Hname1 [Hholes1 Hrounds1]]]]].
  assert (Hcount1 : (List.length (rounds_on (Round.date second)
                                            (Course.roundHistory course1)) <= 1)%nat).
  { rewrite <- Hdate, Hrounds1. cbn. lia. }
  assert (Hid1' : Course.id course1 = courseId) by congruence.
  destruct (saveRound_updater_course courseId second _ i course1 Hnth1 Hid1' Hcount1)
    as [course2 [Hnth2 [Hid2 [Hname2 [Hholes2 Hrounds2]]]]].
  exists (mkHook (saveRound_updater courseId second
                    (saveRound_updater courseId first (cell h))) b), course2.
  split; [exact Hrun |]. cbn.
  split; [exact Hnth2 |].
  split; [exact Hrounds2 |].
  repeat split; congruence.
Qed.

Lemma saveRound_twice_replaces_witness :
  exists (h' : Provider) (course' : Course.t),
    (rendered (fun golfData => saveRound print_fixed golfData "pinehurst" morning) ;;;
     rendered (fun golfData => saveRound print_fixed golfData "pinehurst" evening))%js
      sample_provider
    = (h', Normal tt)
    /\ nth_error (GolfData.courses (cell h')) 0 = Some course'
    /\ rounds_on "2024-05-08" (Course.roundHistory course') = [evening]
    /\ Course.id course' = "pinehurst"
    /\ Course.name course' = "Pinehurst"
    /\ Course.holes course' = [hole7].
Proof.
  apply (saveRound_twice_replaces print_fixed sample_provider "pinehurst"
           morning evening 0 pinehurst).
  - reflexivity.
  - reflexivity.
  - reflexivity.
  - cbn. lia.
Defined.

(** C6. Tendency append is set-like: for a profile whose tendencies hold no
    duplicate, calling [addPlayerTendency] twice with the same text leaves
    exactly one occurrence of it; the second call is rejected and leaves the
    state as the first call left it. *)
Theorem addPlayerTendency_twice_once :
  forall (JSON_stringify : GolfData.t -> completion string) (h : Provider)
         (tendency : string),
    NoDup (PlayerProfile.tendencies (profile_or_empty (cell h))) ->
    exists (h1 h2 : Provider),
      rendered (fun golfData => addPlayerTendency JSON_stringify golfData tendency) h
      = (h1, Normal tt)
      /\ rendered (fun golfData => addPlayerTendency JSON_stringify golfData tendency) h1
         = (h2, Normal tt)
      /\ cell h2 = cell h1
      /\ count_occ string_dec
           (PlayerProfile.tendencies (profile_or_empty (cell h2))) tendency = 1%nat.
Proof.
  intros JSON_stringify h tendency Hnodup.
  unfold addPlayerTendency, setGolfData.
  destruct (rendered_once GolfData.t JSON_stringify "golfData"
              (addPlayerTendency_updater tendency) h) as [b1 H1].
  destruct (rendered_once GolfData.t JSON_stringify "golfData"
              (addPlayerTendency_updater tendency)
              (mkHook (addPlayerTendency_updater tendency (cell h)) b1)) as [b2 H2].
  cbn in H2.
  rewrite (addPlayerTendency_updater_known tendency
             (addPlayerTendency_updater tendency (cell h))
             (addPlayerTendency_updater_In tendency (cell h))) in H2.
  do 2 eexists.
  split; [exact H1 |].
  split; [exact H2 |].
  split; [reflexivity |].
  cbn. apply addPlayerTendency_updater_count. exact Hnodup.
Qed.

Lemma addPlayerTendency_twice_once_witness :
  exists (h1 h2 : Provider),
    rendered (fun golfData => addPlayerTendency print_fixed golfData "Leaves putts short")
             sample_provider
    = (h1, Normal tt)
    /\ rendered (fun golfData => addPlayerTendency print_fixed golfData "Leaves putts short") h1
       = (h2, Normal tt)
    /\ cell h2 = cell h1
    /\ count_occ string_dec
         (PlayerProfile.tendencies (profile_or_empty (cell h2))) "Leaves putts short" = 1%nat.
Proof.
  apply (addPlayerTendency_twice_once print_fixed sample_provider "Leaves putts short").
  cbn. constructor; [intros [] | constructor].
Defined.

(** C10. Unknown keys are silent no-ops: [saveRound] with an identifier that
    matches no course, and [addCourseNote] with an identifier that matches no
    course or a hole number that matches no hole of the matched courses,
    leave the whole state (courses, holes, player profile) unchanged and
    raise no error. *)
Theorem unknown_keys_change_nothing :
  forall (JSON_stringify : GolfData.t -> completion string) (h : Provider),
    (forall (courseId : string) (round : Round.t),
        (forall course, In course (GolfData.courses (cell h)) ->
                        Course.id course <> courseId) ->
        exists h',
          rendered (fun golfData => saveRound JSON_stringify golfData courseId round) h
          = (h', Normal tt)
          /\ cell h' = cell h)
    /\
    (forall (courseId : string) (holeNumber : Z) (note : string),
        (forall course, In course (GolfData.courses (cell h)) ->
                        Course.id course = courseId ->
                        forall hole, In hole (Course.holes course) ->
                                     Hole.holeNumber hole <> holeNumber) ->
        exists h',
          rendered (fun golfData =>
                      addCourseNote JSON_stringify golfData courseId holeNumber note) h
          = (h', Normal tt)
          /\ cell h' = cell h).
Proof.
  intros JSON_stringify h. split.
  - intros courseId round Hnone.
    unfold saveRound, setGolfData.
    destruct (rendered_once GolfData.t JSON_stringify "golfData"
                (saveRound_updater courseId round) h) as [b Hrun].
    eexists. split; [exact Hrun |]. cbn.
    apply saveRound_updater_unknown. exact Hnone.
  - intros courseId holeNumber note Hnone.
    unfold addCourseNote, setGolfData.
    destruct (rendered_once GolfData.t JSON_stringify "golfData"
                (addCourseNote_updater courseId holeNumber note) h) as [b Hrun].
    eexists. split; [exact Hrun |]. cbn.
    apply addCourseNote_updater_unknown. exact Hnone.
Qed.

Lemma unknown_keys_change_nothing_witness :
  (exists h',
      rendered (fun golfData => saveRound print_fixed golfData "augusta" morning)
               sample_provider = (h', Normal tt)
      /\ cell h' = cell sample_provider)
  /\ (exists h',
      rendered (fun golfData => addCourseNote print_fixed golfData "augusta" 7 "Fast green")
               sample_provider = (h', Normal tt)
      /\ cell h' = cell sample_provider)
  /\ (exists h',
      rendered (fun golfData => addCourseNote print_fixed golfData "pinehurst" 19 "Fast green")
               sample_provider = (h', Normal tt)
      /\ cell h' = cell sample_provider).
Proof.
  split; [| split].
  - apply (proj1 (unknown_keys_change_nothing print_fixed sample_provider)).
    cbn. intros course [<- | []]. cbn. discriminate.
  - apply (proj2 (unknown_keys_change_nothing print_fixed sample_provider)).
    cbn. intros course [<- | []]. cbn. discriminate.
  - apply (proj2 (unknown_keys_change_nothing print_fixed sample_provider)).
    cbn. intros course [<- | []] _ hole [<- | []]. cbn. discriminate.
Defined.

(** ** The conversation bridge *)

(** The bridge is total: it completes normally in every case, with the
    offline reply, the fallback reply, or the backend's parsed reply. *)
Lemma getJpConversationalResponse_reply :
  forall (ai : option GoogleGenAI) (course : Course.t) (hole : Hole.t)
         (round : Round.t) (profile : PlayerProfile.t) (n : Net),
    snd (getJpConversationalResponse ai course hole round profile n)
    = Normal (expected_reply ai (request_for course hole round profile)).
Proof.
  intros [client |] course hole round profile n; [| reflexivity].
  unfold getJpConversationalResponse, expected_reply, try_catch, bind,
    generateContent, lift, net_console_error, modify, ret.
  destruct (client (request_for course hole round profile)) as [response | e]; cbn.
  - destruct (Response.parsed_text response) as [v | e]; reflexivity.
  - reflexivity.
Qed.

(** With a client, exactly one request goes out, the one built from the
    arguments. *)
Lemma getJpConversationalResponse_requests :
  forall (client : GoogleGenAI) (course : Course.t) (hole : Hole.t)
         (round : Round.t) (profile : PlayerProfile.t) (n : Net),
    requests (fst (getJpConversationalResponse (Some client) course hole round profile n))
    = requests n ++ [request_for course hole round profile].
Proof.
  intros client course hole round profile n.
  unfold getJpConversationalResponse, try_catch, bind, generateContent, lift,
    net_console_error, modify, ret.
  destruct (client (request_for course hole round profile)) as [response | e]; cbn.
  - destruct (Response.parsed_text response) as [v | e]; reflexivity.
  - reflexivity.
Qed.

(** C1, as the code has it.  For every input and every backend outcome the
    bridge raises no error and returns a value: the fixed offline reply when
    no client is configured, the fixed fallback reply when the transport
    fails or the reply is not JSON (both of the schema's shape), and
    otherwise the parsed JSON value exactly as the backend sent it, whether
    or not it has the schema's shape. *)
Theorem getJpConversationalResponse_never_throws :
  forall (ai : option GoogleGenAI) (course : Course.t) (hole : Hole.t)
         (round : Round.t) (profile : PlayerProfile.t) (n : Net),
    snd (getJpConversationalResponse ai course hole round profile n)
    = Normal
        match ai with
        | None => offline_reply
        | Some client =>
            match client (request_for course hole round profile) with
            | Throw _ => fallback_reply
            | Normal response =>
                match Response.parsed_text response with
                | Throw _ => fallback_reply
                | Normal v => v
                end
            end
        end
    /\ reply_shaped offline_reply = true
    /\ reply_shaped fallback_reply = true.
Proof.
  intros ai course hole round profile n.
  split; [| split].
  - apply getJpConversationalResponse_reply.
  - vm_compute. reflexivity.
  - vm_compute. reflexivity.
Qed.

(** C1 fails as stated: a backend that answers the JSON text
    [{"conversationalResponse": 42}] gets that value returned to the caller,
    though it is not of the schema's shape and is not the fallback reply. *)
Lemma getJpConversationalResponse_trusts_reply :
  snd (getJpConversationalResponse (Some careless_backend)
         pinehurst hole7 today sample_profile quiet)
  = Normal malformed_reply
  /\ Schema.conforms responseSchema malformed_reply = false
  /\ reply_shaped malformed_reply = false
  /\ member "conversationalResponse"
       match malformed_reply with JObject members => members | _ => [] end
     = Some (JNumber (Number.of_Z 42)).
Proof.
  repeat split; vm_compute; reflexivity.
Qed.

(** A well-formed reply with two extracted facts reaches the caller as it
    is. *)
Lemma getJpConversationalResponse_passes_extraction :
  snd (getJpConversationalResponse (Some extracting_backend)
         pinehurst hole7 today sample_profile quiet)
  = Normal extracting_reply
  /\ reply_shaped extracting_reply = true.
Proof.
  split; vm_compute; reflexivity.
Qed.

(** Transport failure and a reply that is not JSON both give the fallback
    reply, after one request and one console line. *)
Lemma getJpConversationalResponse_fallbacks :
  snd (getJpConversationalResponse (Some unreachable_backend)
         pinehurst hole7 today sample_profile quiet)
  = Normal fallback_reply
  /\ snd (getJpConversationalResponse (Some babbling_backend)
            pinehurst hole7 today sample_profile quiet)
     = Normal fallback_reply
  /\ net_console (fst (getJpConversationalResponse (Some unreachable_backend)
                         pinehurst hole7 today sample_profile quiet))
     = ["Error fetching JP's response: TypeError: Failed to fetch"].
Proof.
  repeat split; vm_compute; reflexivity.
Qed.

(** C4. When no API credential is configured, [getJpConversationalResponse]
    returns the fixed offline reply (its message, [extractedData: null],
    [audioCue: 'none']) for every course, hole, round and profile, and sends
    nothing to the backend. *)
Theorem getJpConversationalResponse_offline :
  forall (process_env : option (string -> option string))
         (connect : string -> GoogleGenAI),
    API_KEY process_env = None \/ API_KEY process_env = Some EmptyString ->
    forall (course : Course.t) (hole : Hole.t) (round : Round.t)
           (profile : PlayerProfile.t) (n : Net),
      getJpConversationalResponse (fst (ai connect (API_KEY process_env)))
        course hole round profile n
      = (n, Normal offline_reply)
      /\ offline_reply
         = JObject
             [ ("conversationalResponse",
                JString "JP is currently offline. The AI Caddie is not configured correctly. Please ensure the API key is set in the environment variables.");
               ("extractedData", JNull);
               ("audioCue", JString "none") ].
Proof.
  intros process_env connect Hmissing course hole round profile n.
  split; [| reflexivity].
  destruct Hmissing as [Hnone | Hempty].
  - rewrite Hnone. reflexivity.
  - rewrite Hempty. reflexivity.
Qed.

Lemma getJpConversationalResponse_offline_witness :
  getJpConversationalResponse (fst (ai (fun _ => careless_backend) (API_KEY None)))
    pinehurst hole7 today sample_profile quiet
  = (quiet, Normal offline_reply)
  /\ offline_reply
     = JObject
         [ ("conversationalResponse",
            JString "JP is currently offline. The AI Caddie is not configured correctly. Please ensure the API key is set in the environment variables.");
           ("extractedData", JNull);
           ("audioCue", JString "none") ].
Proof.
  apply (getJpConversationalResponse_offline None (fun _ => careless_backend)).
  left. reflexivity.
Defined.

(** The turns built from a transcript, message by message. *)
Lemma contents_of_turns :
  forall conversation : list Message.t,
    Forall2
      (fun msg turn =>
         Content.parts turn = [Part.mk (Message.text msg)]
         /\ (Message.sender msg = "jp" -> Content.role turn = "model")
         /\ (Message.sender msg <> "jp" -> Content.role turn = "user"))
      conversation
      (map (fun msg =>
              Content.mk (if String.eqb (Message.sender msg) "jp" then "model" else "user")
                         [Part.mk (Message.text msg)])
           conversation).
Proof.
  induction conversation as [| msg rest IH]; cbn.
  - constructor.
  - constructor; [| exact IH].
    cbn. split; [reflexivity |].
    destruct (String.eqb_spec (Message.sender msg) "jp") as [Hjp | Hplayer].
    + split; [reflexivity | intros Hno; contradiction].
    + split; [intros Hyes; contradiction | reflexivity].
Qed.

(** C7. The bridge maps a round's transcript to a turn sequence of the same
    length and order: each caddie (['jp']) message becomes a [model] turn,
    every other message a [user] turn, each with the message's text; and the
    whole sequence is what the request carries. *)
Theorem transcript_sent_whole :
  forall (client : GoogleGenAI) (course : Course.t) (hole : Hole.t)
         (round : Round.t) (profile : PlayerProfile.t) (n : Net),
    Forall2
      (fun msg turn =>
         Content.parts turn = [Part.mk (Message.text msg)]
         /\ (Message.sender msg = "jp" -> Content.role turn = "model")
         /\ (Message.sender msg <> "jp" -> Content.role turn = "user"))
      (Round.conversation round) (contents_of round)
    /\ List.length (contents_of round) = List.length (Round.conversation round)
    /\ requests (fst (getJpConversationalResponse (Some client) course hole round profile n))
       = requests n ++ [request_for course hole round profile]
    /\ Request.contents (request_for course hole round profile) = contents_of round.
Proof.
  intros client course hole round profile n.
  split; [| split; [| split]].
  - apply contents_of_turns.
  - unfold contents_of. apply length_map.
  - apply getJpConversationalResponse_requests.
  - reflexivity.
Qed.

(** The sample transcript: a player message, then a caddie message. *)
Lemma contents_of_sample :
  contents_of today
  = [ Content.mk "user" [Part.mk "Pulled my drive left again."];
      Content.mk "model" [Part.mk "We have seen that before here. Aim a touch right."] ].
Proof. reflexivity. Qed.

(** ** The context block: notes and tendencies *)

Lemma holeNotes_absent :
  forall hole : Hole.t, Hole.notes hole = None -> holeNotes hole = EmptyString.
Proof.
  intros hole Hnone. unfold holeNotes. rewrite Hnone. reflexivity.
Qed.

(** A notes list that is present is rendered, whatever its length. *)
Lemma holeNotes_present :
  forall (hole : Hole.t) (notes : list string),
    Hole.notes hole = Some notes ->
    holeNotes hole
    = ("
    - Your organic notes on this hole: " ++ join ", " notes)%string.
Proof.
  intros hole notes Hsome. unfold holeNotes. rewrite Hsome. reflexivity.
Qed.

Lemma playerTendencies_empty :
  forall profile : PlayerProfile.t,
    PlayerProfile.tendencies profile = [] -> playerTendencies profile = EmptyString.
Proof.
  intros profile Hempty. unfold playerTendencies. rewrite Hempty. reflexivity.
Qed.

Lemma playerTendencies_nonempty :
  forall (profile : PlayerProfile.t) (t : string) (rest : list string),
    PlayerProfile.tendencies profile = t :: rest ->
    playerTendencies profile
    = ("
    - General Player Tendencies: " ++ join ", " (t :: rest))%string.
Proof.
  intros profile t rest Hsome. unfold playerTendencies. rewrite Hsome. reflexivity.
Qed.

(** C2, at the input where the code departs from it.  For a hole whose notes
    list is present and empty the notes line is rendered, with nothing after
    its label, where the claim has it omitted; a hole with no notes list and
    a profile with no tendencies get no line. *)
Lemma holeNotes_empty_list_rendered :
  holeNotes hole7_no_notes_yet
  = "
    - Your organic notes on this hole: "
  /\ includes ("Your organic notes on this hole: " ++ prompt_weather)%string
       (buildSystemPrompt pinehurst hole7_no_notes_yet today sample_profile) = true
  /\ includes "Your organic notes"
       (buildSystemPrompt pinehurst hole7 today sample_profile) = false
  /\ includes "General Player Tendencies"
       (buildSystemPrompt pinehurst hole7 today (PlayerProfile.mk [])) = false.
Proof.
  repeat split; vm_compute; reflexivity.
Qed.

(** ** The historical aggregator *)

Lemma find_firstn_filter :
  forall (A : Type) (p : A -> bool) (l : list A),
    match find p l with
    | Some x => [x]
    | None => []
    end = firstn 1 (filter p l).
Proof.
  intros A p l. induction l as [| x l IH]; cbn.
  - reflexivity.
  - destruct (p x); [reflexivity | exact IH].
Qed.

(** The code keeps, of each round, the first performance on the hole. *)
Lemma relevantHistory_first_of_each_round :
  forall (course : Course.t) (hole : Hole.t),
    relevantHistory course hole = first_of_each_round course (Hole.holeNumber hole).
Proof.
  intros course hole.
  unfold relevantHistory, first_of_each_round.
  induction (Course.roundHistory course) as [| r rounds IH].
  - reflexivity.
  - cbn [map flat_map].
    rewrite <- IH.
    rewrite <- (find_firstn_filter _ (on_hole (Hole.holeNumber hole)) (Round.holeByHole r)).
    unfold on_hole.
    destruct (find _ (Round.holeByHole r)); reflexivity.
Qed.

Lemma firstn_1_short :
  forall (A : Type) (l : list A), (List.length l <= 1)%nat -> firstn 1 l = l.
Proof.
  intros A [| x [| y l]] Hlen; cbn in *; try reflexivity; lia.
Qed.

(** When no round lists the hole twice, those are all its performances. *)
Lemma first_of_each_round_all :
  forall (course : Course.t) (holeNumber : Z),
    listed_once course holeNumber ->
    first_of_each_round course holeNumber = matching_entries course holeNumber.
Proof.
  intros course holeNumber.
  unfold listed_once, first_of_each_round, matching_entries.
  induction (Course.roundHistory course) as [| r rounds IH]; intros Honce.
  - reflexivity.
  - inversion Honce as [| r' rounds' Hr Hrounds]; subst.
    cbn [flat_map].
    rewrite filter_app, <- (IH Hrounds), (firstn_1_short _ _ Hr). reflexivity.
Qed.

Lemma fold_left_scores :
  forall (entries : list HolePerformance.t) (acc : Number.t),
    fold_left (fun acc h => Number.add acc (Number.of_Z (HolePerformance.score h)))
              entries acc
    = fold_left (fun acc s => Number.add acc (Number.of_Z s))
                (map HolePerformance.score entries) acc.
Proof.
  induction entries as [| h entries IH]; cbn; intros acc.
  - reflexivity.
  - apply IH.
Qed.

Lemma avgScore_mean :
  forall entries : list HolePerformance.t,
    avgScore entries = mean (map HolePerformance.score entries).
Proof.
  intros entries. unfold avgScore, mean.
  rewrite fold_left_scores, length_map. reflexivity.
Qed.

(** The summary is the sentinel or the sentence, by the entries kept. *)
Lemma historySummary_sentence :
  forall (course : Course.t) (hole : Hole.t),
    historySummary course hole
    = summary_sentence (map HolePerformance.score (relevantHistory course hole)).
Proof.
  intros course hole.
  unfold historySummary, summary_sentence.
  destruct (relevantHistory course hole) as [| h entries] eqn:Hkept.
  - reflexivity.
  - change (0 <? List.length (h :: entries))%nat with true. cbv iota.
    rewrite avgScore_mean.
    change (map HolePerformance.score (h :: entries))
      with (HolePerformance.score h :: map HolePerformance.score entries).
    unfold Number.toString_int.
    rewrite <- (length_map HolePerformance.score (h :: entries)).
    reflexivity.
Qed.

(** *** Double arithmetic on small integers *)

Lemma In_range :
  forall (lo : Z) (len : nat) (x : Z),
    lo <= x < lo + Z.of_nat len -> In x (range lo len).
Proof.
  intros lo len x Hx. unfold range.
  apply in_map_iff. exists (Z.to_nat (x - lo)). split.
  - lia.
  - apply in_seq. lia.
Qed.

Lemma SF_eqb_eq :
  forall x y : spec_float, SF_eqb x y = true -> x = y.
Proof.
  intros [a | a | | a m e] [b | b | | b m' e'] H; cbn in H; try discriminate H.
  - apply Bool.eqb_prop in H. congruence.
  - apply Bool.eqb_prop in H. congruence.
  - reflexivity.
  - apply andb_prop in H. destruct H as [H He].
    apply andb_prop in H. destruct H as [Hs Hm].
    apply Bool.eqb_prop in Hs. apply Pos.eqb_eq in Hm. apply Z.eqb_eq in He.
    congruence.
Qed.

(** Adding a score up to 15 to a sum up to 585 is exact. *)
Lemma add_table_holds :
  forallb (fun a => forallb (fun b => add_exact a b) (range 0 16)) (range 0 586) = true.
Proof. vm_compute. reflexivity. Qed.

(** For a sum up to 585 over 1 to 39 entries, the double quotient has the
    hundredths of the exact quotient. *)
Lemma div_table_holds :
  forallb (fun n => forallb (fun S => cents_agree S n) (range 0 586)) (range 1 39) = true.
Proof. vm_compute. reflexivity. Qed.

Lemma forallb_range :
  forall (f : Z -> bool) (lo : Z) (len : nat),
    forallb f (range lo len) = true ->
    forall x : Z, lo <= x < lo + Z.of_nat len -> f x = true.
Proof.
  intros f lo len Hall x Hx.
  apply (proj1 (forallb_forall f (range lo len)) Hall x).
  apply In_range. exact Hx.
Qed.

Lemma add_small :
  forall a b : Z,
    0 <= a <= 585 -> 0 <= b <= 15 ->
    Number.add (Number.of_Z a) (Number.of_Z b) = Number.of_Z (a + b).
Proof.
  intros a b Ha Hb.
  apply SF_eqb_eq.
  pose proof (forallb_range _ 0 586 add_table_holds a ltac:(lia)) as Hrow.
  exact (forallb_range _ 0 16 Hrow b ltac:(lia)).
Qed.

Lemma cents_agree_toFixed :
  forall S n : Z,
    cents_agree S n = true ->
    Number.toFixed (Number.div (Number.of_Z S) (Number.of_Z n)) 2
    = Number.fixed_point ((2 * 100 * S + n) / (2 * n)) 2.
Proof.
  intros S n. unfold cents_agree, Number.toFixed.
  destruct (Number.div (Number.of_Z S) (Number.of_Z n)) as [s | s | | [|] m e];
    intros Hagree; try discriminate Hagree.
  - apply Z.eqb_eq in Hagree. rewrite Hagree. reflexivity.
  - apply andb_prop in Hagree. destruct Hagree as [Hbelow Hcents].
    apply negb_true_iff in Hbelow. apply Z.eqb_eq in Hcents.
    rewrite Hbelow, Hcents. reflexivity.
Qed.

Lemma div_small :
  forall S n : Z,
    0 <= S <= 585 -> 1 <= n <= 39 ->
    Number.toFixed (Number.div (Number.of_Z S) (Number.of_Z n)) 2
    = Number.fixed_point ((2 * 100 * S + n) / (2 * n)) 2.
Proof.
  intros S n HS Hn.
  apply cents_agree_toFixed.
  pose proof (forallb_range _ 1 39 div_table_holds n ltac:(lia)) as Hrow.
  exact (forallb_range _ 0 586 Hrow S ltac:(lia)).
Qed.

Lemma total_bounds :
  forall scores : list Z,
    Forall (fun s => 0 <= s <= 15) scores ->
    0 <= total scores <= 15 * Z.of_nat (List.length scores).
Proof.
  induction 1 as [| s scores Hs _ IH]; cbn [total fold_right List.length].
  - lia.
  - fold (total scores). lia.
Qed.

(** Summing small scores in doubles is exact. *)
Lemma sum_small :
  forall (scores : list Z) (a : Z),
    Forall (fun s => 0 <= s <= 15) scores ->
    0 <= a -> a + 15 * Z.of_nat (List.length scores) <= 600 ->
    fold_left (fun acc s => Number.add acc (Number.of_Z s)) scores (Number.of_Z a)
    = Number.of_Z (a + total scores).
Proof.
  induction scores as [| s scores IH]; intros a Hscores Ha Hroom.
  - cbn. f_equal. lia.
  - inversion Hscores as [| s' scores' Hs Hrest]; subst.
    cbn [fold_left total fold_right List.length] in *. fold (total scores).
    rewrite add_small by lia.
    rewrite IH by (try assumption; lia).
    f_equal. lia.
Qed.

(** For fewer than forty scores between 0 and 15, the printed average is
    the exact mean rounded to hundredths, upwards from a half. *)
Lemma mean_small :
  forall scores : list Z,
    Forall (fun s => 0 <= s <= 15) scores ->
    (1 <= List.length scores <= 39)%nat ->
    Number.toFixed (mean scores) 2
    = Number.fixed_point (rounded_mean_cents scores) 2.
Proof.
  intros scores Hscores Hlen.
  unfold mean, rounded_mean_cents.
  pose proof (total_bounds scores Hscores) as Htotal.
  rewrite (sum_small scores 0 Hscores) by lia.
  cbn [Z.add].
  apply div_small; lia.
Qed.

(** [rounded_mean_cents] is the nearest number of hundredths to the exact
    mean: within half a hundredth, and above when exactly between two. *)
Lemma rounded_mean_cents_nearest :
  forall scores : list Z,
    scores <> [] ->
    let n := Z.of_nat (List.length scores) in
    let c := rounded_mean_cents scores in
    2 * (c * n) - n <= 2 * (100 * total scores) < 2 * (c * n) + n.
Proof.
  intros scores Hne n c.
  assert (Hn : 0 < n).
  { subst n. destruct scores; [congruence | cbn; lia]. }
  subst c. unfold rounded_mean_cents. fold n.
  pose proof (Z.div_mod (2 * 100 * total scores + n) (2 * n) ltac:(lia)) as Hdm.
  pose proof (Z.mod_pos_bound (2 * 100 * total scores + n) (2 * n) ltac:(lia)) as Hmod.
  nia.
Qed.

(** C3, as the code has it.  The aggregator keeps, of each round of the
    history, the first performance whose hole number matches; these are all
    the matching performances when no round lists the hole twice.  With none
    kept the summary is the fixed sentinel and shows no average; with
    [n > 0] kept it reports the count [n] and the mean of their scores,
    computed in doubles and printed by [toFixed(2)], which is the exact mean
    rounded to two decimals for fewer than forty scores between 0 and 15. *)
Theorem historySummary_first_entries :
  forall (course : Course.t) (hole : Hole.t),
    let kept := first_of_each_round course (Hole.holeNumber hole) in
    let scores := map HolePerformance.score kept in
    relevantHistory course hole = kept
    /\ historySummary course hole
       = match scores with
         | [] => "No previous history on this hole."
         | _ :: _ =>
             ("Player has played this hole "
              ++ Number.digits (Z.of_nat (List.length scores))
              ++ " times with an average score of "
              ++ Number.toFixed (mean scores) 2 ++ ".")%string
         end
    /\ (listed_once course (Hole.holeNumber hole) ->
        kept = matching_entries course (Hole.holeNumber hole))
    /\ (Forall (fun s => 0 <= s <= 15) scores ->
        (1 <= List.length scores <= 39)%nat ->
        Number.toFixed (mean scores) 2
        = Number.fixed_point (rounded_mean_cents scores) 2).
Proof.
  intros course hole kept scores.
  split; [| split; [| split]].
  - apply relevantHistory_first_of_each_round.
  - rewrite historySummary_sentence, relevantHistory_first_of_each_round.
    reflexivity.
  - apply first_of_each_round_all.
  - apply mean_small.
Qed.

(** The worked example of the spec: scores 5 and 3 on hole 7 give count 2
    and average 4.00. *)
Lemma historySummary_first_entries_witness :
  relevantHistory pinehurst hole7 = matching_entries pinehurst 7
  /\ map HolePerformance.score (matching_entries pinehurst 7) = [5; 3]
  /\ historySummary pinehurst hole7
     = "Player has played this hole 2 times with an average score of 4.00."
  /\ Number.toFixed (mean [5; 3]) 2 = Number.fixed_point (rounded_mean_cents [5; 3]) 2.
Proof.
  destruct (historySummary_first_entries pinehurst hole7) as [Hkept [Hsummary [Hall Hmean]]].
  split; [| split; [| split]].
  - rewrite Hkept. apply Hall.
    repeat constructor.
  - reflexivity.
  - rewrite Hsummary. vm_compute. reflexivity.
  - apply Hmean.
    + repeat constructor; cbn; lia.
    + cbn. lia.
Defined.

(** C3 fails as stated: when a round lists hole 7 twice, with scores 5 and
    3, two performances match, yet the summary counts one and averages it
    alone. *)
Lemma historySummary_one_per_round :
  map HolePerformance.score (matching_entries doubled 7) = [5; 3]
  /\ relevantHistory doubled hole7 = [HolePerformance.mk 7 5 None]
  /\ historySummary doubled hole7
     = "Player has played this hole 1 times with an average score of 5.00.".
Proof.
  repeat split; vm_compute; reflexivity.
Qed.

(** With no matching performance the summary is the sentinel. *)
Lemma historySummary_no_history :
  forall (course : Course.t) (hole : Hole.t),
    matching_entries course (Hole.holeNumber hole) = [] ->
    historySummary course hole = "No previous history on this hole.".
Proof.
  intros course hole Hnone.
  rewrite historySummary_sentence, relevantHistory_first_of_each_round.
  assert (Hkept : first_of_each_round course (Hole.holeNumber hole) = []).
  { revert Hnone. unfold first_of_each_round, matching_entries.
    induction (Course.roundHistory course) as [| r rounds IH]; intros Hnone.
    - reflexivity.
    - cbn [flat_map] in *. rewrite filter_app in Hnone.
      apply app_eq_nil in Hnone. destruct Hnone as [Hr Hrounds].
      rewrite Hr, (IH Hrounds). reflexivity. }
  rewrite Hkept. reflexivity.
Qed.

(** Beyond that range the printed average can differ from the exact mean
    rounded to two decimals: forty rounds with 107 strokes have the mean
    2.675, whose nearest double lies below it, and the summary prints 2.67
    where rounding the exact mean gives 2.68. *)
Lemma historySummary_double_rounding :
  List.length (relevantHistory forty_rounds hole7) = 40%nat
  /\ total (map HolePerformance.score (relevantHistory forty_rounds hole7)) = 107
  /\ rounded_mean_cents (map HolePerformance.score (relevantHistory forty_rounds hole7)) = 268
  /\ historySummary forty_rounds hole7
     = "Player has played this hole 40 times with an average score of 2.67.".
Proof.
  repeat split; vm_compute; reflexivity.
Qed.

(** ** The prompt builder *)

(** C8. The prompt builder is deterministic: two calls of [buildSystemPrompt]
    with equal course, hole, round and player profile produce identical
    instruction texts. *)
Theorem buildSystemPrompt_deterministic :
  forall (course1 course2 : Course.t) (hole1 hole2 : Hole.t)
         (round1 round2 : Round.t) (profile1 profile2 : PlayerProfile.t),
    course1 = course2 -> hole1 = hole2 -> round1 = round2 -> profile1 = profile2 ->
    buildSystemPrompt course1 hole1 round1 profile1
    = buildSystemPrompt course2 hole2 round2 profile2.
Proof.
  intros course1 course2 hole1 hole2 round1 round2 profile1 profile2
         Hcourse Hhole Hround Hprofile.
  subst course2 hole2 round2 profile2.
  reflexivity.
Qed.

Lemma buildSystemPrompt_deterministic_witness :
  buildSystemPrompt pinehurst hole7 today sample_profile
  = buildSystemPrompt pinehurst hole7 today sample_profile.
Proof.
  apply (buildSystemPrompt_deterministic pinehurst pinehurst hole7 hole7
           today today sample_profile sample_profile); reflexivity.
Defined.

(** * Further properties of the provider *)

(** ** Sessions *)

Section Sessions.

Variable JSON_stringify : GolfData.t -> completion string.

(** A call after a render completes normally and leaves its updater's
    result in the state cell. *)
Lemma perform_cell :
  forall (a : Action) (h : Provider),
    exists b,
      perform JSON_stringify a h = (mkHook (updater_of a (cell h)) b, Normal tt).
Proof.
  intros a h. unfold perform.
  destruct a as [course | courseId round | courseId holeNumber note | tendency].
  - exact (rendered_once GolfData.t JSON_stringify "golfData" (addCourse_updater course) h).
  - exact (rendered_once GolfData.t JSON_stringify "golfData"
             (saveRound_updater courseId round) h).
  - exact (rendered_once GolfData.t JSON_stringify "golfData"
             (addCourseNote_updater courseId holeNumber note) h).
  - exact (rendered_once GolfData.t JSON_stringify "golfData"
             (addPlayerTendency_updater tendency) h).
Qed.

(** A session completes normally and leaves the replay of its calls. *)
Lemma session_cell :
  forall (actions : list Action) (h : Provider),
    exists b,
      session JSON_stringify actions h = (mkHook (replay actions (cell h)) b, Normal tt).
Proof.
  induction actions as [| a actions IH]; intros h.
  - destruct h as [c b]. exists b. reflexivity.
  - cbn [session]. unfold bind.
    destruct (perform_cell a h) as [b1 H1]. rewrite H1.
    destruct (IH (mkHook (updater_of a (cell h)) b1)) as [b2 H2].
    rewrite H2. exists b2. reflexivity.
Qed.

End Sessions.

(** ** What only grows *)

Lemma begins_refl : forall (A : Type) (l : list A), begins l l.
Proof. intros A l. exists []. symmetry. apply app_nil_r. Qed.

Lemma begins_trans :
  forall (A : Type) (l1 l2 l3 : list A), begins l1 l2 -> begins l2 l3 -> begins l1 l3.
Proof.
  intros A l1 l2 l3 [r1 H1] [r2 H2]. exists (r1 ++ r2).
  rewrite H2, H1. symmetry. apply app_assoc.
Qed.

Lemma begins_push : forall (A : Type) (l : list A) (x : A), begins l (l ++ [x]).
Proof. intros A l x. exists [x]. reflexivity. Qed.

Lemma Forall2_same :
  forall (A : Type) (R : A -> A -> Prop) (l : list A),
    (forall x, R x x) -> Forall2 R l l.
Proof.
  intros A R l Hrefl. induction l; constructor; auto.
Qed.

Lemma Forall2_map_r :
  forall (A : Type) (R : A -> A -> Prop) (f : A -> A) (l : list A),
    (forall x, R x (f x)) -> Forall2 R l (map f l).
Proof.
  intros A R f l HR. induction l; cbn; constructor; auto.
Qed.

Lemma Forall2_chain :
  forall (A : Type) (R : A -> A -> Prop) (l1 l2 l3 : list A),
    (forall x y z, R x y -> R y z -> R x z) ->
    Forall2 R l1 l2 -> Forall2 R l2 l3 -> Forall2 R l1 l3.
Proof.
  intros A R l1 l2 l3 Htrans H12. revert l3.
  induction H12 as [| x y l1 l2 Hxy _ IH]; intros l3 H23.
  - inversion H23. constructor.
  - inversion H23 as [| y' z l2' l3' Hyz Hrest]; subst.
    constructor; [exact (Htrans x y z Hxy Hyz) | exact (IH _ Hrest)].
Qed.

Lemma hole_grown_refl : forall hole : Hole.t, hole_grown hole hole.
Proof.
  intros hole. repeat split. apply begins_refl.
Qed.

Lemma hole_grown_trans :
  forall h1 h2 h3 : Hole.t, hole_grown h1 h2 -> hole_grown h2 h3 -> hole_grown h1 h3.
Proof.
  intros h1 h2 h3 [Hn1 [Hp1 [Hy1 Hb1]]] [Hn2 [Hp2 [Hy2 Hb2]]].
  repeat split; try congruence.
  exact (begins_trans _ _ _ _ Hb1 Hb2).
Qed.

Lemma course_grown_refl : forall course : Course.t, course_grown course course.
Proof.
  intros course. repeat split.
  - apply Forall2_same. exact hole_grown_refl.
  - apply begins_refl.
Qed.

Lemma course_grown_trans :
  forall c1 c2 c3 : Course.t,
    course_grown c1 c2 -> course_grown c2 c3 -> course_grown c1 c3.
Proof.
  intros c1 c2 c3 [Hi1 [Hn1 [Hh1 Hd1]]] [Hi2 [Hn2 [Hh2 Hd2]]].
  repeat split; try congruence.
  - exact (Forall2_chain _ _ _ _ _ hole_grown_trans Hh1 Hh2).
  - exact (begins_trans _ _ _ _ Hd1 Hd2).
Qed.

Lemma data_grown_refl : forall data : GolfData.t, data_grown data data.
Proof.
  intros data. split.
  - exists (GolfData.courses data), []. split.
    + symmetry. apply app_nil_r.
    + apply Forall2_same. exact course_grown_refl.
  - apply begins_refl.
Qed.

Lemma data_grown_trans :
  forall d1 d2 d3 : GolfData.t, data_grown d1 d2 -> data_grown d2 d3 -> data_grown d1 d3.
Proof.
  intros d1 d2 d3 [[kept1 [added1 [Hc1 Hk1]]] Ht1] [[kept2 [added2 [Hc2 Hk2]]] Ht2].
  split; [| exact (begins_trans _ _ _ _ Ht1 Ht2)].
  rewrite Hc1 in Hk2.
  apply Forall2_app_inv_l in Hk2.
  destruct Hk2 as [kept [rest [Hkept [_ Hsplit]]]].
  exists kept, (rest ++ added2). split.
  - rewrite Hc2, Hsplit. symmetry. apply app_assoc.
  - exact (Forall2_chain _ _ _ _ _ course_grown_trans Hk1 Hkept).
Qed.

(** The element [findIndex] points at satisfies the test. *)
Lemma findIndex_Some_nth :
  forall (A : Type) (p : A -> bool) (l : list A) (i : nat),
    findIndex p l = Some i ->
    exists x, nth_error l i = Some x /\ p x = true
              /\ forall j y, (j < i)%nat -> nth_error l j = Some y -> p y = false.
Proof.
  intros A p. induction l as [| y l IH]; cbn; intros i Hfound.
  - discriminate Hfound.
  - destruct (p y) eqn:Hpy.
    + injection Hfound as <-. exists y. repeat split; auto.
      intros j z Hj. lia.
    + destruct (findIndex p l) as [k |] eqn:Hk; [| discriminate Hfound].
      injection Hfound as <-.
      destruct (IH k eq_refl) as [x [Hnth [Hpx Hbefore]]].
      exists x. repeat split; auto.
      intros [| j] z Hj Hz; cbn in Hz.
      * congruence.
      * apply (Hbefore j z); [lia | exact Hz].
Qed.

Lemma map_assign_same :
  forall (A B : Type) (f : A -> B) (l : list A) (i : nat) (x y : A),
    nth_error l i = Some y -> f x = f y -> map f (assign l i x) = map f l.
Proof.
  intros A B f. induction l as [| z l IH]; intros [| i] x y Hnth Hf; cbn in *;
    try discriminate Hnth.
  - injection Hnth as ->. rewrite Hf. reflexivity.
  - f_equal. exact (IH i x y Hnth Hf).
Qed.

(** Replace-or-append keeps the dates of a history, in order. *)
Lemma upsert_dates :
  forall (history : list Round.t) (round : Round.t),
    begins (map Round.date history)
           (map Round.date
              match findIndex (fun r => String.eqb (Round.date r) (Round.date round)) history with
              | Some i => assign history i round
              | None => history ++ [round]
              end).
Proof.
  intros history round.
  destruct (findIndex _ history) as [i |] eqn:Hfound.
  - destruct (findIndex_Some_nth _ _ _ _ Hfound) as [old [Hnth [Hdate _]]].
    apply String.eqb_eq in Hdate.
    rewrite (map_assign_same _ _ Round.date history i round old Hnth (eq_sym Hdate)).
    apply begins_refl.
  - rewrite map_app. apply begins_push.
Qed.

Lemma updater_grows :
  forall (a : Action) (data : GolfData.t), data_grown data (updater_of a data).
Proof.
  intros [course | courseId round | courseId holeNumber note | tendency] data.
  - split.
    + exists (GolfData.courses data), [course]. split; [reflexivity |].
      apply Forall2_same. exact course_grown_refl.
    + apply begins_refl.
  - split; [| apply begins_refl].
    exists (GolfData.courses (saveRound_updater courseId round data)), [].
    split; [symmetry; apply app_nil_r |].
    unfold saveRound_updater. cbn [GolfData.courses].
    apply Forall2_map_r. intros course.
    destruct (String.eqb (Course.id course) courseId); [| apply course_grown_refl].
    repeat split; cbn.
    + apply Forall2_same. exact hole_grown_refl.
    + apply upsert_dates.
  - split; [| apply begins_refl].
    exists (GolfData.courses (addCourseNote_updater courseId holeNumber note data)), [].
    split; [symmetry; apply app_nil_r |].
    unfold addCourseNote_updater. cbn [GolfData.courses].
    apply Forall2_map_r. intros course.
    destruct (String.eqb (Course.id course) courseId); [| apply course_grown_refl].
    repeat split; cbn; [| apply begins_refl].
    apply Forall2_map_r. intros hole.
    destruct (Hole.holeNumber hole =? holeNumber); [| apply hole_grown_refl].
    repeat split; cbn.
    unfold notes_or_empty. cbn. apply begins_push.
  - split.
    + exists (GolfData.courses data), []. split.
      * unfold updater_of, addPlayerTendency_updater.
        destruct (existsb _ _); cbn; symmetry; apply app_nil_r.
      * apply Forall2_same. exact course_grown_refl.
    + unfold updater_of, addPlayerTendency_updater.
      destruct (existsb _ _); cbn; [apply begins_refl | apply begins_push].
Qed.

Lemma replay_grows :
  forall (actions : list Action) (data : GolfData.t),
    data_grown data (replay actions data).
Proof.
  induction actions as [| a actions IH]; intros data.
  - apply data_grown_refl.
  - cbn. apply (data_grown_trans _ (updater_of a data)).
    + apply updater_grows.
    + apply IH.
Qed.

Lemma NoDup_push :
  forall (A : Type) (l : list A) (x : A), NoDup l -> ~ In x l -> NoDup (l ++ [x]).
Proof.
  intros A l x Hnodup Hnotin.
  induction Hnodup as [| y l Hy _ IH]; cbn.
  - constructor; [intros [] | constructor].
  - constructor.
    + intros Hin. apply in_app_or in Hin. destruct Hin as [Hin | [Heq | []]].
      * exact (Hy Hin).
      * apply Hnotin. left. symmetry. exact Heq.
    + apply IH. intros Hin. apply Hnotin. right. exact Hin.
Qed.

Lemma updater_keeps_distinct :
  forall (a : Action) (data : GolfData.t),
    NoDup (PlayerProfile.tendencies (profile_or_empty data)) ->
    NoDup (PlayerProfile.tendencies (profile_or_empty (updater_of a data))).
Proof.
  intros [course | courseId round | courseId holeNumber note | tendency] data Hnodup;
    try exact Hnodup.
  unfold updater_of, addPlayerTendency_updater.
  destruct (existsb _ _) eqn:Hknown; [exact Hnodup |].
  cbn. apply NoDup_push; [exact Hnodup |].
  intros Hin.
  assert (Htrue : existsb (String.eqb tendency)
                    (PlayerProfile.tendencies (profile_or_empty data)) = true).
  { apply existsb_exists. exists tendency. split; [exact Hin | apply String.eqb_refl]. }
  congruence.
Qed.

Lemma replay_keeps_distinct :
  forall (actions : list Action) (data : GolfData.t),
    NoDup (PlayerProfile.tendencies (profile_or_empty data)) ->
    NoDup (PlayerProfile.tendencies (profile_or_empty (replay actions data))).
Proof.
  induction actions as [| a actions IH]; intros data Hnodup.
  - exact Hnodup.
  - cbn. apply IH. apply updater_keeps_distinct. exact Hnodup.
Qed.

(** ** [saveRound] *)

Section Upsert.

Variable A : Type.
Variable p : A -> bool.

Lemma filter_nil_findIndex :
  forall l : list A, filter p l = [] -> findIndex p l = None.
Proof.
  induction l as [| x l IH]; cbn; intros Hnone.
  - reflexivity.
  - destruct (p x); [discriminate Hnone |].
    rewrite (IH Hnone). reflexivity.
Qed.

Lemma filter_cons_findIndex :
  forall (l : list A) (first : A) (others : list A),
    filter p l = first :: others ->
    exists k, findIndex p l = Some k /\ nth_error l k = Some first.
Proof.
  induction l as [| x l IH]; cbn; intros first others Hsome.
  - discriminate Hsome.
  - destruct (p x).
    + injection Hsome as <- _. exists O. split; reflexivity.
    + destruct (IH first others Hsome) as [k [Hk Hnth]].
      exists (S k). rewrite Hk. split; [reflexivity | exact Hnth].
Qed.

Lemma length_assign :
  forall (l : list A) (i : nat) (x : A), List.length (assign l i x) = List.length l.
Proof.
  induction l as [| y l IH]; intros [| i] x; cbn; auto.
Qed.

Lemma nth_error_assign_same :
  forall (l : list A) (i : nat) (x y : A),
    nth_error l i = Some y -> nth_error (assign l i x) i = Some x.
Proof.
  induction l as [| z l IH]; intros [| i] x y Hnth; cbn in *; try discriminate Hnth.
  - reflexivity.
  - exact (IH i x y Hnth).
Qed.

Lemma nth_error_assign_other :
  forall (l : list A) (i j : nat) (x : A),
    j <> i -> nth_error (assign l i x) j = nth_error l j.
Proof.
  induction l as [| z l IH]; intros [| i] [| j] x Hneq; cbn; try reflexivity.
  - congruence.
  - apply IH. congruence.
Qed.

Lemma findIndex_assign :
  forall (l : list A) (i : nat) (x : A),
    findIndex p l = Some i -> p x = true -> findIndex p (assign l i x) = Some i.
Proof.
  induction l as [| y l IH]; cbn; intros i x Hfound Hpx.
  - discriminate Hfound.
  - destruct (p y) eqn:Hpy.
    + injection Hfound as <-. cbn. rewrite Hpx. reflexivity.
    + destruct (findIndex p l) as [k |] eqn:Hk; [| discriminate Hfound].
      injection Hfound as <-. cbn. rewrite Hpy, (IH k x eq_refl Hpx). reflexivity.
Qed.

Lemma assign_assign :
  forall (l : list A) (i : nat) (x : A), assign (assign l i x) i x = assign l i x.
Proof.
  induction l as [| y l IH]; intros [| i] x; cbn; try reflexivity.
  f_equal. apply IH.
Qed.

Lemma findIndex_push :
  forall (l : list A) (x : A),
    findIndex p l = None -> p x = true -> findIndex p (l ++ [x]) = Some (List.length l).
Proof.
  induction l as [| y l IH]; cbn; intros x Hnone Hpx.
  - rewrite Hpx. reflexivity.
  - destruct (p y); [discriminate Hnone |].
    destruct (findIndex p l) as [k |] eqn:Hk; [discriminate Hnone |].
    rewrite (IH x eq_refl Hpx). reflexivity.
Qed.

Lemma assign_last :
  forall (l : list A) (x y : A), assign (l ++ [y]) (List.length l) x = l ++ [x].
Proof.
  induction l as [| z l IH]; intros x y; cbn.
  - reflexivity.
  - f_equal. apply IH.
Qed.

(** Replace-or-append, done twice with the same element, is as done once. *)
Lemma upsert_twice :
  forall (l : list A) (x : A),
    p x = true ->
    let once := match findIndex p l with
                | Some i => assign l i x
                | None => l ++ [x]
                end in
    match findIndex p once with
    | Some i => assign once i x
    | None => once ++ [x]
    end = once.
Proof.
  intros l x Hpx once. subst once.
  destruct (findIndex p l) as [i |] eqn:Hfound.
  - rewrite (findIndex_assign l i x Hfound Hpx). apply assign_assign.
  - rewrite (findIndex_push l x Hfound Hpx). apply assign_last.
Qed.

(** The new element is in the result of replace-or-append. *)
Lemma upsert_In :
  forall (l : list A) (x : A),
    In x match findIndex p l with
         | Some i => assign l i x
         | None => l ++ [x]
         end.
Proof.
  intros l x.
  destruct (findIndex p l) as [i |] eqn:Hfound.
  - destruct (findIndex_Some_nth _ _ _ _ Hfound) as [y [Hnth _]].
    apply (nth_error_In _ i). exact (nth_error_assign_same l i x y Hnth).
  - apply in_or_app. right. left. reflexivity.
Qed.

End Upsert.

Lemma saveRound_updater_twice :
  forall (courseId : string) (round : Round.t) (data : GolfData.t),
    saveRound_updater courseId round (saveRound_updater courseId round data)
    = saveRound_updater courseId round data.
Proof.
  intros courseId round [courses profile].
  unfold saveRound_updater. cbn [GolfData.courses GolfData.playerProfile].
  f_equal. rewrite map_map. apply map_ext. intros course.
  destruct (String.eqb (Course.id course) courseId) eqn:Hid.
  - cbn [Course.id Course.name Course.holes Course.roundHistory]. rewrite Hid.
    f_equal. apply upsert_twice. apply String.eqb_refl.
  - rewrite Hid. reflexivity.
Qed.

(** X1. [saveRound] is idempotent: calling it twice with the same course
    identifier and the same round leaves the state that one call leaves,
    whatever the state was. *)
Theorem saveRound_idempotent :
  forall (JSON_stringify : GolfData.t -> completion string)
         (courseId : string) (round : Round.t) (h : Provider),
    exists h1 h2 : Provider,
      session JSON_stringify [SaveRound courseId round] h = (h1, Normal tt)
      /\ session JSON_stringify [SaveRound courseId round; SaveRound courseId round] h
         = (h2, Normal tt)
      /\ cell h2 = cell h1.
Proof.
  intros JSON_stringify courseId round h.
  destruct (session_cell JSON_stringify [SaveRound courseId round] h) as [b1 H1].
  destruct (session_cell JSON_stringify
              [SaveRound courseId round; SaveRound courseId round] h) as [b2 H2].
  do 2 eexists. split; [exact H1 |]. split; [exact H2 |].
  cbn. apply saveRound_updater_twice.
Qed.

(** What [saveRound] leaves at the place of a course it matches. *)
Lemma saveRound_updater_nth :
  forall (courseId : string) (round : Round.t) (data : GolfData.t)
         (i : nat) (course : Course.t),
    nth_error (GolfData.courses data) i = Some course ->
    Course.id course = courseId ->
    nth_error (GolfData.courses (saveRound_updater courseId round data)) i
    = Some (Course.mk (Course.id course) (Course.name course) (Course.holes course)
              match findIndex (fun r => String.eqb (Round.date r) (Round.date round))
                              (Course.roundHistory course) with
              | Some k => assign (Course.roundHistory course) k round
              | None => Course.roundHistory course ++ [round]
              end).
Proof.
  intros courseId round data i course Hnth Hid.
  unfold saveRound_updater. cbn [GolfData.courses].
  rewrite nth_error_map, Hnth. cbn [option_map].
  rewrite Hid, String.eqb_refl, <- Hid. reflexivity.
Qed.

(** X2. [saveRound] with a date the course's history does not hold appends
    the round at the end of that history and changes nothing else of the
    course. *)
Theorem saveRound_new_date_appends :
  forall (JSON_stringify : GolfData.t -> completion string) (h : Provider)
         (courseId : string) (round : Round.t) (i : nat) (course : Course.t),
    nth_error (GolfData.courses (cell h)) i = Some course ->
    Course.id course = courseId ->
    rounds_on (Round.date round) (Course.roundHistory course) = [] ->
    exists h' : Provider,
      perform JSON_stringify (SaveRound courseId round) h = (h', Normal tt)
      /\ nth_error (GolfData.courses (cell h')) i
         = Some (Course.mk (Course.id course) (Course.name course) (Course.holes course)
                           (Course.roundHistory course ++ [round])).
Proof.
  intros JSON_stringify h courseId round i course Hnth Hid Hnew.
  destruct (perform_cell JSON_stringify (SaveRound courseId round) h) as [b Hrun].
  eexists. split; [exact Hrun |].
  cbn [cell updater_of].
  rewrite (saveRound_updater_nth courseId round (cell h) i course Hnth Hid).
  unfold rounds_on in Hnew.
  rewrite (filter_nil_findIndex _ _ _ Hnew). reflexivity.
Qed.

Lemma saveRound_new_date_appends_witness :
  exists h' : Provider,
    perform print_fixed (SaveRound "pinehurst" later) sample_provider = (h', Normal tt)
    /\ nth_error (GolfData.courses (cell h')) 0
       = Some (Course.mk "pinehurst" "Pinehurst" [hole7]
                         (Course.roundHistory pinehurst ++ [later])).
Proof.
  apply (saveRound_new_date_appends print_fixed sample_provider "pinehurst" later 0 pinehurst);
    reflexivity.
Defined.

(** X3. [saveRound] with a date the history already holds puts the round in
    the place of the first round of that date and keeps every other round,
    later rounds of the same date included: the history keeps its length. *)
Theorem saveRound_replaces_first_of_date :
  forall (JSON_stringify : GolfData.t -> completion string) (h : Provider)
         (courseId : string) (round : Round.t) (i : nat) (course : Course.t)
         (first : Round.t) (others : list Round.t),
    nth_error (GolfData.courses (cell h)) i = Some course ->
    Course.id course = courseId ->
    rounds_on (Round.date round) (Course.roundHistory course) = first :: others ->
    exists (h' : Provider) (course' : Course.t) (k : nat),
      perform JSON_stringify (SaveRound courseId round) h = (h', Normal tt)
      /\ nth_error (GolfData.courses (cell h')) i = Some course'
      /\ List.length (Course.roundHistory course') = List.length (Course.roundHistory course)
      /\ nth_error (Course.roundHistory course) k = Some first
      /\ nth_error (Course.roundHistory course') k = Some round
      /\ (forall j, j <> k ->
                    nth_error (Course.roundHistory course') j
                    = nth_error (Course.roundHistory course) j)
      /\ rounds_on (Round.date round) (Course.roundHistory course') = round :: others.
Proof.
  intros JSON_stringify h courseId round i course first others Hnth Hid Hheld.
  destruct (perform_cell JSON_stringify (SaveRound courseId round) h) as [b Hrun].
  unfold rounds_on in Hheld.
  destruct (filter_cons_findIndex _ _ _ _ _ Hheld) as [k [Hfound Hfirst]].
  do 2 eexists. exists k.
  split; [exact Hrun |].
  cbn [cell updater_of].
  rewrite (saveRound_updater_nth courseId round (cell h) i course Hnth Hid).
  rewrite Hfound.
  split; [reflexivity |].
  cbn [Course.roundHistory].
  split; [apply length_assign |].
  split; [exact Hfirst |].
  split; [exact (nth_error_assign_same _ _ k round first Hfirst) |].
  split; [intros j Hj; apply nth_error_assign_other; exact Hj |].
  unfold rounds_on.
  rewrite (findIndex_Some_assign _ _ _ k round Hfound (String.eqb_refl _)).
  rewrite Hheld. reflexivity.
Qed.

Lemma saveRound_replaces_first_of_date_witness :
  exists (h' : Provider) (course' : Course.t) (k : nat),
    perform print_fixed (SaveRound "pinehurst" afternoon) busy_provider = (h', Normal tt)
    /\ nth_error (GolfData.courses (cell h')) 0 = Some course'
    /\ List.length (Course.roundHistory course') = List.length (Course.roundHistory twice_a_day)
    /\ nth_error (Course.roundHistory twice_a_day) k = Some morning
    /\ nth_error (Course.roundHistory course') k = Some afternoon
    /\ (forall j, j <> k ->
                  nth_error (Course.roundHistory course') j
                  = nth_error (Course.roundHistory twice_a_day) j)
    /\ rounds_on (Round.date afternoon) (Course.roundHistory course') = [afternoon; evening].
Proof.
  apply (saveRound_replaces_first_of_date print_fixed busy_provider "pinehurst"
           afternoon 0 twice_a_day morning [evening]); reflexivity.
Defined.

(** ** Invariants of sessions *)

(** X4. Whatever mutators are called, in whatever order, the state only
    grows: the courses it had stay, in order, with their identifier, name
    and holes (number, par and yardage); every hole keeps the notes it had
    as the beginning of its notes; every history keeps its dates, in order;
    and the tendencies it had are the beginning of those it has.  No call
    raises an error. *)
Theorem session_only_grows :
  forall (JSON_stringify : GolfData.t -> completion string)
         (actions : list Action) (h : Provider),
    exists h' : Provider,
      session JSON_stringify actions h = (h', Normal tt)
      /\ data_grown (cell h) (cell h').
Proof.
  intros JSON_stringify actions h.
  destruct (session_cell JSON_stringify actions h) as [b Hrun].
  eexists. split; [exact Hrun |].
  cbn [cell]. apply replay_grows.
Qed.

(** X5. A profile without duplicate tendencies never gets one, whatever
    mutators are called: [addPlayerTendency] is the only one that touches
    the tendencies, and it appends only a text that is not there. *)
Theorem session_keeps_tendencies_distinct :
  forall (JSON_stringify : GolfData.t -> completion string)
         (actions : list Action) (h : Provider),
    NoDup (PlayerProfile.tendencies (profile_or_empty (cell h))) ->
    exists h' : Provider,
      session JSON_stringify actions h = (h', Normal tt)
      /\ NoDup (PlayerProfile.tendencies (profile_or_empty (cell h'))).
Proof.
  intros JSON_stringify actions h Hnodup.
  destruct (session_cell JSON_stringify actions h) as [b Hrun].
  eexists. split; [exact Hrun |].
  cbn [cell]. apply replay_keeps_distinct. exact Hnodup.
Qed.

Lemma session_keeps_tendencies_distinct_witness :
  exists h' : Provider,
    session print_fixed
      [ AddPlayerTendency "Leaves putts short";
        AddCourse augusta;
        AddPlayerTendency "Tends to pull the driver left";
        AddPlayerTendency "Leaves putts short" ]
      sample_provider
    = (h', Normal tt)
    /\ NoDup (PlayerProfile.tendencies (profile_or_empty (cell h'))).
Proof.
  apply (session_keeps_tendencies_distinct print_fixed).
  cbn. constructor; [intros [] | constructor].
Defined.

(** X13. Two mutator calls made within one render both start from the state
    that render saw: the state ends as if only the second had been made, and
    the first call's change is lost. *)
Theorem same_render_keeps_last_call :
  forall (JSON_stringify : GolfData.t -> completion string)
         (a1 a2 : Action) (h : Provider),
    exists h' : Provider,
      rendered (fun golfData =>
                  call JSON_stringify golfData a1 ;;; call JSON_stringify golfData a2)%js h
      = (h', Normal tt)
      /\ cell h' = updater_of a2 (cell h).
Proof.
  intros JSON_stringify a1 a2 h.
  assert (Hcall : forall a golfData,
             call JSON_stringify golfData a
             = setValue JSON_stringify "golfData" golfData (Updater (updater_of a))).
  { intros [course | courseId round | courseId holeNumber note | tendency] golfData;
      reflexivity. }
  destruct (same_render_twice GolfData.t JSON_stringify "golfData"
              (updater_of a1) (updater_of a2) h) as [b Hrun].
  eexists. split.
  - unfold rendered in *. rewrite (Hcall a1), (Hcall a2). exact Hrun.
  - reflexivity.
Qed.

(** ** [addCourseNote] *)

(** X6. [addCourseNote] on a hole it matches appends the note to the notes
    the hole had (to an empty list when it had none) and keeps the hole's
    number, par and yardage; a note that is already there is added again. *)
Theorem addCourseNote_appends :
  forall (JSON_stringify : GolfData.t -> completion string) (h : Provider)
         (courseId : string) (holeNumber : Z) (note : string)
         (i : nat) (course : Course.t) (j : nat) (hole : Hole.t),
    nth_error (GolfData.courses (cell h)) i = Some course ->
    Course.id course = courseId ->
    nth_error (Course.holes course) j = Some hole ->
    Hole.holeNumber hole = holeNumber ->
    exists (h' : Provider) (course' : Course.t) (hole' : Hole.t),
      perform JSON_stringify (AddCourseNote courseId holeNumber note) h = (h', Normal tt)
      /\ nth_error (GolfData.courses (cell h')) i = Some course'
      /\ nth_error (Course.holes course') j = Some hole'
      /\ hole' = Hole.mk (Hole.holeNumber hole) (Hole.par hole) (Hole.yardage hole)
                         (Some (notes_or_empty hole ++ [note]))
      /\ count_occ string_dec (notes_or_empty hole') note
         = S (count_occ string_dec (notes_or_empty hole) note).
Proof.
  intros JSON_stringify h courseId holeNumber note i course j hole Hnth Hid Hhole Hnumber.
  subst holeNumber.
  destruct (perform_cell JSON_stringify
              (AddCourseNote courseId (Hole.holeNumber hole) note) h) as [b Hrun].
  do 3 eexists. split; [exact Hrun |].
  cbn [cell updater_of]. unfold addCourseNote_updater. cbn [GolfData.courses].
  rewrite nth_error_map, Hnth. cbn [option_map].
  rewrite Hid, String.eqb_refl.
  split; [reflexivity |]. cbn [Course.holes].
  rewrite nth_error_map, Hhole. cbn [option_map].
  rewrite Z.eqb_refl.
  split; [reflexivity |].
  split; [reflexivity |].
  unfold notes_or_empty at 1. cbn [Hole.notes].
  fold (notes_or_empty hole).
  rewrite count_occ_app. cbn.
  destruct (string_dec note note) as [_ | Hneq]; [lia | congruence].
Qed.

Lemma addCourseNote_appends_witness :
  exists (h' : Provider) (course' : Course.t) (hole' : Hole.t),
    perform print_fixed (AddCourseNote "pinehurst" 7 "Green runs fast") sample_provider
    = (h', Normal tt)
    /\ nth_error (GolfData.courses (cell h')) 0 = Some course'
    /\ nth_error (Course.holes course') 0 = Some hole'
    /\ hole' = Hole.mk 7 4 380 (Some ["Green runs fast"])
    /\ count_occ string_dec (notes_or_empty hole') "Green runs fast" = 1%nat.
Proof.
  apply (addCourseNote_appends print_fixed sample_provider "pinehurst" 7
           "Green runs fast" 0 pinehurst 0 hole7); reflexivity.
Defined.

(** ** What each mutator leaves alone *)

(** X7. Each mutator changes one part of the state and leaves the rest:
    [saveRound] keeps the identifier, name and holes of every course, every
    course with another identifier, and the profile; [addCourseNote] keeps
    the identifier, name and round history of every course, the number, par
    and yardage of every hole, and the profile; [addPlayerTendency] keeps
    the courses; [addCourse] keeps the courses there were, before the new
    one, and the profile. *)
Theorem mutators_leave_the_rest :
  forall (JSON_stringify : GolfData.t -> completion string) (h : Provider),
    (forall (courseId : string) (round : Round.t),
        exists h' : Provider,
          perform JSON_stringify (SaveRound courseId round) h = (h', Normal tt)
          /\ map Course.id (GolfData.courses (cell h')) = map Course.id (GolfData.courses (cell h))
          /\ map Course.name (GolfData.courses (cell h'))
             = map Course.name (GolfData.courses (cell h))
          /\ map Course.holes (GolfData.courses (cell h'))
             = map Course.holes (GolfData.courses (cell h))
          /\ GolfData.playerProfile (cell h') = GolfData.playerProfile (cell h)
          /\ (forall i course,
                 nth_error (GolfData.courses (cell h)) i = Some course ->
                 Course.id course <> courseId ->
                 nth_error (GolfData.courses (cell h')) i = Some course))
    /\ (forall (courseId : string) (holeNumber : Z) (note : string),
        exists h' : Provider,
          perform JSON_stringify (AddCourseNote courseId holeNumber note) h = (h', Normal tt)
          /\ map Course.id (GolfData.courses (cell h')) = map Course.id (GolfData.courses (cell h))
          /\ map Course.name (GolfData.courses (cell h'))
             = map Course.name (GolfData.courses (cell h))
          /\ map Course.roundHistory (GolfData.courses (cell h'))
             = map Course.roundHistory (GolfData.courses (cell h))
          /\ map (fun course =>
                    map (fun hole => (Hole.holeNumber hole, Hole.par hole, Hole.yardage hole))
                        (Course.holes course))
                 (GolfData.courses (cell h'))
             = map (fun course =>
                      map (fun hole => (Hole.holeNumber hole, Hole.par hole, Hole.yardage hole))
                          (Course.holes course))
                   (GolfData.courses (cell h))
          /\ GolfData.playerProfile (cell h') = GolfData.playerProfile (cell h))
    /\ (forall tendency : string,
        exists h' : Provider,
          perform JSON_stringify (AddPlayerTendency tendency) h = (h', Normal tt)
          /\ GolfData.courses (cell h') = GolfData.courses (cell h))
    /\ (forall course : Course.t,
        exists h' : Provider,
          perform JSON_stringify (AddCourse course) h = (h', Normal tt)
          /\ GolfData.courses (cell h') = GolfData.courses (cell h) ++ [course]
          /\ GolfData.playerProfile (cell h') = GolfData.playerProfile (cell h)).
Proof.
  intros JSON_stringify h.
  split; [| split; [| split]].
  - intros courseId round.
    destruct (perform_cell JSON_stringify (SaveRound courseId round) h) as [b Hrun].
    eexists. split; [exact Hrun |].
    cbn [cell updater_of]. unfold saveRound_updater.
    cbn [GolfData.courses GolfData.playerProfile].
    repeat split.
    + rewrite map_map. apply map_ext. intros course.
      destruct (String.eqb (Course.id course) courseId); reflexivity.
    + rewrite map_map. apply map_ext. intros course.
      destruct (String.eqb (Course.id course) courseId); reflexivity.
    + rewrite map_map. apply map_ext. intros course.
      destruct (String.eqb (Course.id course) courseId); reflexivity.
    + intros i course Hnth Hother.
      rewrite nth_error_map, Hnth. cbn [option_map].
      destruct (String.eqb_spec (Course.id course) courseId); [contradiction | reflexivity].
  - intros courseId holeNumber note.
    destruct (perform_cell JSON_stringify (AddCourseNote courseId holeNumber note) h)
      as [b Hrun].
    eexists. split; [exact Hrun |].
    cbn [cell updater_of]. unfold addCourseNote_updater.
    cbn [GolfData.courses GolfData.playerProfile].
    repeat split.
    + rewrite map_map. apply map_ext. intros course.
      destruct (String.eqb (Course.id course) courseId); reflexivity.
    + rewrite map_map. apply map_ext. intros course.
      destruct (String.eqb (Course.id course) courseId); reflexivity.
    + rewrite map_map. apply map_ext. intros course.
      destruct (String.eqb (Course.id course) courseId); reflexivity.
    + rewrite map_map. apply map_ext. intros course.
      destruct (String.eqb (Course.id course) courseId); [| reflexivity].
      cbn [Course.holes]. rewrite map_map. apply map_ext. intros hole.
      destruct (Hole.holeNumber hole =? holeNumber); reflexivity.
  - intros tendency.
    destruct (perform_cell JSON_stringify (AddPlayerTendency tendency) h) as [b Hrun].
    eexists. split; [exact Hrun |].
    cbn [cell updater_of]. unfold addPlayerTendency_updater.
    destruct (existsb _ _); reflexivity.
  - intros course.
    destruct (perform_cell JSON_stringify (AddCourse course) h) as [b Hrun].
    eexists. split; [exact Hrun |].
    split; reflexivity.
Qed.

(** ** [addPlayerTendency] *)

Lemma addPlayerTendency_updater_tendencies :
  forall (tendency : string) (data : GolfData.t),
    PlayerProfile.tendencies (profile_or_empty (addPlayerTendency_updater tendency data))
    = if existsb (String.eqb tendency) (PlayerProfile.tendencies (profile_or_empty data))
      then PlayerProfile.tendencies (profile_or_empty data)
      else PlayerProfile.tendencies (profile_or_empty data) ++ [tendency].
Proof.
  intros tendency data. unfold addPlayerTendency_updater.
  destruct (existsb _ _); reflexivity.
Qed.

Lemma existsb_eqb_In :
  forall (t : string) (l : list string),
    existsb (String.eqb t) l = true <-> In t l.
Proof.
  intros t l. rewrite existsb_exists. split.
  - intros [x [Hin Heq]]. apply String.eqb_eq in Heq. subst x. exact Hin.
  - intros Hin. exists t. split; [exact Hin | apply String.eqb_refl].
Qed.

(** X8. A tendency that the profile does not hold is appended at the end of
    its tendencies, to an empty list when the state has no profile; the
    courses stay as they are. *)
Theorem addPlayerTendency_appends_new :
  forall (JSON_stringify : GolfData.t -> completion string) (h : Provider)
         (tendency : string),
    ~ In tendency (PlayerProfile.tendencies (profile_or_empty (cell h))) ->
    exists h' : Provider,
      perform JSON_stringify (AddPlayerTendency tendency) h = (h', Normal tt)
      /\ GolfData.playerProfile (cell h')
         = Some (PlayerProfile.mk
                   (PlayerProfile.tendencies (profile_or_empty (cell h)) ++ [tendency]))
      /\ GolfData.courses (cell h') = GolfData.courses (cell h).
Proof.
  intros JSON_stringify h tendency Hnew.
  destruct (perform_cell JSON_stringify (AddPlayerTendency tendency) h) as [b Hrun].
  eexists. split; [exact Hrun |].
  cbn [cell updater_of]. unfold addPlayerTendency_updater.
  destruct (existsb _ _) eqn:Hknown.
  - exfalso. apply Hnew. apply existsb_eqb_In. exact Hknown.
  - split; reflexivity.
Qed.

Lemma addPlayerTendency_appends_new_witness :
  exists h' : Provider,
    perform print_fixed (AddPlayerTendency "Leaves putts short") busy_provider
    = (h', Normal tt)
    /\ GolfData.playerProfile (cell h') = Some (PlayerProfile.mk ["Leaves putts short"])
    /\ GolfData.courses (cell h') = [twice_a_day].
Proof.
  apply (addPlayerTendency_appends_new print_fixed busy_provider "Leaves putts short").
  cbn. intros [].
Defined.

(** X9. Adding two tendencies in either order gives profiles with the same
    tendencies, as many of them, though perhaps in another order. *)
Theorem addPlayerTendency_order :
  forall (JSON_stringify : GolfData.t -> completion string) (h : Provider)
         (a b : string),
    exists h1 h2 : Provider,
      session JSON_stringify [AddPlayerTendency a; AddPlayerTendency b] h = (h1, Normal tt)
      /\ session JSON_stringify [AddPlayerTendency b; AddPlayerTendency a] h = (h2, Normal tt)
      /\ (forall t, In t (PlayerProfile.tendencies (profile_or_empty (cell h1)))
                    <-> In t (PlayerProfile.tendencies (profile_or_empty (cell h2))))
      /\ List.length (PlayerProfile.tendencies (profile_or_empty (cell h1)))
         = List.length (PlayerProfile.tendencies (profile_or_empty (cell h2))).
Proof.
  intros JSON_stringify h a b.
  destruct (session_cell JSON_stringify [AddPlayerTendency a; AddPlayerTendency b] h)
    as [b1 H1].
  destruct (session_cell JSON_stringify [AddPlayerTendency b; AddPlayerTendency a] h)
    as [b2 H2].
  do 2 eexists. split; [exact H1 |]. split; [exact H2 |].
  cbn [cell replay fold_left updater_of].
  rewrite !addPlayerTendency_updater_tendencies.
  set (l := PlayerProfile.tendencies (profile_or_empty (cell h))).
  destruct (existsb (String.eqb a) l) eqn:Ha; destruct (existsb (String.eqb b) l) eqn:Hb;
    rewrite ?Ha, ?Hb, ?existsb_app; cbn [existsb]; rewrite ?Ha, ?Hb, ?orb_false_r;
    cbn [orb].
  - split; [tauto | reflexivity].
  - split; [tauto | reflexivity].
  - split; [tauto | reflexivity].
  - rewrite (String.eqb_sym a b).
    destruct (String.eqb_spec b a) as [Heq | Hneq].
    + subst b. split; [tauto | reflexivity].
    + split.
      * intros t. rewrite !in_app_iff. cbn. tauto.
      * rewrite !length_app. cbn. lia.
Qed.

(** ** [getCourseById] and [addCourse] *)

Lemma find_push :
  forall (A : Type) (p : A -> bool) (l : list A) (x : A),
    find p (l ++ [x])
    = match find p l with
      | Some y => Some y
      | None => if p x then Some x else None
      end.
Proof.
  intros A p l x. induction l as [| y l IH]; cbn.
  - reflexivity.
  - destruct (p y); [reflexivity | exact IH].
Qed.

Lemma find_map_same_test :
  forall (A : Type) (p : A -> bool) (f : A -> A) (l : list A),
    (forall x, p (f x) = p x) ->
    find p (map f l) = option_map f (find p l).
Proof.
  intros A p f l Hp. induction l as [| y l IH]; cbn.
  - reflexivity.
  - rewrite Hp. destruct (p y); [reflexivity | exact IH].
Qed.

(** X10. [addCourse] does not look at identifiers: after it,
    [getCourseById] with the new course's identifier finds the new course
    when no course had that identifier, and still finds the earlier course
    when one had; lookups by any other identifier are as before. *)
Theorem addCourse_then_getCourseById :
  forall (JSON_stringify : GolfData.t -> completion string) (h : Provider)
         (course : Course.t),
    exists h' : Provider,
      perform JSON_stringify (AddCourse course) h = (h', Normal tt)
      /\ getCourseById (cell h') (Course.id course)
         = match getCourseById (cell h) (Course.id course) with
           | Some earlier => Some earlier
           | None => Some course
           end
      /\ (forall courseId, courseId <> Course.id course ->
                           getCourseById (cell h') courseId = getCourseById (cell h) courseId).
Proof.
  intros JSON_stringify h course.
  destruct (perform_cell JSON_stringify (AddCourse course) h) as [b Hrun].
  eexists. split; [exact Hrun |].
  cbn [cell updater_of]. unfold getCourseById, addCourse_updater.
  cbn [GolfData.courses].
  split.
  - rewrite find_push, String.eqb_refl. reflexivity.
  - intros courseId Hother. rewrite find_push.
    destruct (String.eqb_spec (Course.id course) courseId) as [Heq | _].
    + congruence.
    + destruct (find _ _); reflexivity.
Qed.

(** X11. A saved round can be read back: when [getCourseById] finds a
    course, after [saveRound] with that identifier it finds a course of the
    same identifier, name and holes whose history holds the round. *)
Theorem saveRound_then_getCourseById :
  forall (JSON_stringify : GolfData.t -> completion string) (h : Provider)
         (courseId : string) (round : Round.t) (course : Course.t),
    getCourseById (cell h) courseId = Some course ->
    exists (h' : Provider) (course' : Course.t),
      perform JSON_stringify (SaveRound courseId round) h = (h', Normal tt)
      /\ getCourseById (cell h') courseId = Some course'
      /\ In round (Course.roundHistory course')
      /\ Course.id course' = courseId
      /\ Course.name course' = Course.name course
      /\ Course.holes course' = Course.holes course.
Proof.
  intros JSON_stringify h courseId round course Hfound.
  destruct (perform_cell JSON_stringify (SaveRound courseId round) h) as [b Hrun].
  do 2 eexists. split; [exact Hrun |].
  cbn [cell updater_of].
  unfold getCourseById in *. unfold saveRound_updater. cbn [GolfData.courses].
  rewrite find_map_same_test.
  - rewrite Hfound. cbn [option_map].
    apply find_some in Hfound. destruct Hfound as [_ Hid].
    rewrite Hid.
    split; [reflexivity |].
    cbn [Course.roundHistory Course.id Course.name Course.holes].
    split; [apply upsert_In |].
    apply String.eqb_eq in Hid.
    repeat split. exact Hid.
  - intros c. destruct (String.eqb (Course.id c) courseId) eqn:Hc; cbn; rewrite Hc; reflexivity.
Qed.

Lemma saveRound_then_getCourseById_witness :
  exists (h' : Provider) (course' : Course.t),
    perform print_fixed (SaveRound "pinehurst" later) sample_provider = (h', Normal tt)
    /\ getCourseById (cell h') "pinehurst" = Some course'
    /\ In later (Course.roundHistory course')
    /\ Course.id course' = "pinehurst"
    /\ Course.name course' = Course.name pinehurst
    /\ Course.holes course' = Course.holes pinehurst.
Proof.
  apply (saveRound_then_getCourseById print_fixed sample_provider "pinehurst" later pinehurst).
  reflexivity.
Defined.

(** X12. [getCourseById] returns the first course with the identifier, and
    nothing exactly when no course has it. *)
Theorem getCourseById_first :
  forall (golfData : GolfData.t) (courseId : string),
    match getCourseById golfData courseId with
    | Some course =>
        exists i,
          nth_error (GolfData.courses golfData) i = Some course
          /\ Course.id course = courseId
          /\ forall j other, (j < i)%nat ->
                             nth_error (GolfData.courses golfData) j = Some other ->
                             Course.id other <> courseId
    | None =>
        forall course, In course (GolfData.courses golfData) -> Course.id course <> courseId
    end.
Proof.
  intros [courses profile] courseId. unfold getCourseById. cbn [GolfData.courses].
  induction courses as [| c courses IH]; cbn.
  - intros course [].
  - destruct (String.eqb_spec (Course.id c) courseId) as [Heq | Hneq].
    + exists O. repeat split; auto. intros j other Hj. lia.
    + destruct (find _ courses) as [course |].
      * destruct IH as [i [Hnth [Hid Hbefore]]].
        exists (S i). repeat split; auto.
        intros [| j] other Hj Hother; cbn in Hother.
        -- congruence.
        -- apply (Hbefore j other); [lia | exact Hother].
      * intros course [<- | Hin]; [exact Hneq | exact (IH course Hin)].
Qed.

(** X24. [saveRound] writes the round into every course that has the
    identifier, not only into the one [getCourseById] returns: identifiers
    are not kept unique by [addCourse]. *)
Theorem saveRound_reaches_every_match :
  forall (JSON_stringify : GolfData.t -> completion string) (h : Provider)
         (courseId : string) (round : Round.t),
    exists h' : Provider,
      perform JSON_stringify (SaveRound courseId round) h = (h', Normal tt)
      /\ forall i course,
           nth_error (GolfData.courses (cell h)) i = Some course ->
           Course.id course = courseId ->
           exists course',
             nth_error (GolfData.courses (cell h')) i = Some course'
             /\ In round (Course.roundHistory course').
Proof.
  intros JSON_stringify h courseId round.
  destruct (perform_cell JSON_stringify (SaveRound courseId round) h) as [b Hrun].
  eexists. split; [exact Hrun |].
  cbn [cell updater_of]. intros i course Hnth Hid.
  eexists. split.
  - exact (saveRound_updater_nth courseId round (cell h) i course Hnth Hid).
  - cbn [Course.roundHistory]. apply upsert_In.
Qed.

Lemma saveRound_reaches_every_match_witness :
  exists h' : Provider,
    perform print_fixed (SaveRound "pinehurst" later) twin_provider = (h', Normal tt)
    /\ (exists first, nth_error (GolfData.courses (cell h')) 0 = Some first
                      /\ In later (Course.roundHistory first))
    /\ (exists second, nth_error (GolfData.courses (cell h')) 1 = Some second
                       /\ In later (Course.roundHistory second)).
Proof.
  destruct (saveRound_reaches_every_match print_fixed twin_provider "pinehurst" later)
    as [h' [Hrun Hall]].
  exists h'. split; [exact Hrun |]. split.
  - apply (Hall 0%nat pinehurst); reflexivity.
  - apply (Hall 1%nat pinehurst_again); reflexivity.
Defined.

(** ** Persistence *)

Section PersistenceFacts.

Variable T : Type.
Variable JSON_parse : string -> completion T.
Variable JSON_stringify : T -> completion string.

(** The browser after [setValue], in each case. *)
Lemma setValue_browser :
  forall (key : string) (storedValue : T) (value : SetStateAction T) (h : Hook T),
    browser (fst (setValue JSON_stringify key storedValue value h))
    = match JSON_stringify (valueToStore storedValue value) with
      | Throw e => mkBrowser (localStorage (browser h)) (console_lines (browser h) ++ [e])
      | Normal text =>
          match Storage.setItem_error (localStorage (browser h)) key text with
          | Some e => mkBrowser (localStorage (browser h)) (console_lines (browser h) ++ [e])
          | None =>
              mkBrowser
                (Storage.mk
                   (fun k => if String.eqb k key then Some text
                             else Storage.items (localStorage (browser h)) k)
                   (Storage.getItem_error (localStorage (browser h)))
                   (Storage.setItem_error (localStorage (browser h))))
                (console_lines (browser h))
          end
      end.
Proof.
  intros key storedValue value h.
  unfold setValue, try_catch, bind, setStoredValue, modify, in_browser, lift,
    localStorage_setItem, console_error.
  fold (valueToStore storedValue value).
  cbn.
  destruct (JSON_stringify (valueToStore storedValue value)) as [text | e]; cbn.
  - unfold Storage.setItem.
    destruct (Storage.setItem_error (localStorage (browser h)) key text) as [e |];
      reflexivity.
  - reflexivity.
Qed.

(** The initializer with a document it can use. *)
Lemma initialStoredValue_usable :
  forall (key : string) (initialValue : T) (b : Browser) (c : ascii) (text : string) (v : T),
    Storage.getItem (localStorage b) key = Normal (Some (String c text)) ->
    JSON_parse (String c text) = Normal v ->
    initialStoredValue T JSON_parse key initialValue b = (b, Normal v).
Proof.
  intros key initialValue b c text v Hitem Hparse.
  unfold initialStoredValue, try_catch, bind, localStorage_getItem, lift.
  rewrite Hitem. cbn. rewrite Hparse. reflexivity.
Qed.


End PersistenceFacts.

(** X14. What is saved is what a reload starts from: when the state a
    mutator leaves prints to a non-empty text that parses back to it, and
    the storage can be written and read, mounting the provider on the
    browser the call leaves gives that state. *)
Theorem saved_state_is_reloaded :
  forall (JSON_parse : string -> completion GolfData.t)
         (JSON_stringify : GolfData.t -> completion string)
         (a : Action) (h : Provider) (c : ascii) (text : string),
    JSON_stringify (updater_of a (cell h)) = Normal (String c text) ->
    JSON_parse (String c text) = Normal (updater_of a (cell h)) ->
    Storage.setItem_error (localStorage (browser h)) "golfData" (String c text) = None ->
    Storage.getItem_error (localStorage (browser h)) = None ->
    exists h' : Provider,
      perform JSON_stringify a h = (h', Normal tt)
      /\ GolfDataProvider JSON_parse (browser h') = Normal h'.
Proof.
  intros JSON_parse JSON_stringify a h c text Hprint Hparse Hwrite Hread.
  destruct (perform_cell JSON_stringify a h) as [b Hrun].
  eexists. split; [exact Hrun |].
  assert (Hb : b = browser (fst (perform JSON_stringify a h))) by (rewrite Hrun; reflexivity).
  assert (Hcall : perform JSON_stringify a h
                  = setValue JSON_stringify "golfData" (cell h) (Updater (updater_of a)) h).
  { unfold perform, rendered. destruct a; reflexivity. }
  rewrite Hcall in Hb.
  rewrite (setValue_browser GolfData.t JSON_stringify) in Hb.
  cbn [valueToStore] in Hb. rewrite Hprint, Hwrite in Hb.
  cbn [browser].
  unfold GolfDataProvider, useLocalStorage.
  rewrite (initialStoredValue_usable GolfData.t JSON_parse "golfData" initialGolfData b
             c text (updater_of a (cell h))).
  - reflexivity.
  - subst b. unfold Storage.getItem. cbn. rewrite Hread. reflexivity.
  - exact Hparse.
Qed.

Lemma saved_state_is_reloaded_witness :
  exists h' : Provider,
    perform print_sample (SaveRound "augusta" later) sample_provider = (h', Normal tt)
    /\ GolfDataProvider parse_sample (browser h') = Normal h'.
Proof.
  apply (saved_state_is_reloaded parse_sample print_sample (SaveRound "augusta" later)
           sample_provider "{"%char "sample}"); reflexivity.
Defined.

(** X15. [setValue] writes under its own key only: every other item of the
    storage is as it was, whatever happens; the item under the key is the
    printed value when printing and writing succeed, and is as it was when
    either fails. *)
Theorem setValue_writes_own_key :
  forall (T : Type) (JSON_stringify : T -> completion string)
         (key : string) (storedValue : T) (value : SetStateAction T) (h : Hook T),
    let st := localStorage (browser h) in
    let st' := localStorage (browser (fst (setValue JSON_stringify key storedValue value h))) in
    (forall other, other <> key -> Storage.items st' other = Storage.items st other)
    /\ Storage.items st' key
       = match JSON_stringify (valueToStore storedValue value) with
         | Throw _ => Storage.items st key
         | Normal text =>
             match Storage.setItem_error st key text with
             | Some _ => Storage.items st key
             | None => Some text
             end
         end.
Proof.
  intros T JSON_stringify key storedValue value h st st'.
  subst st st'.
  rewrite (setValue_browser T JSON_stringify).
  destruct (JSON_stringify (valueToStore storedValue value)) as [text | e].
  - destruct (Storage.setItem_error (localStorage (browser h)) key text) as [e |];
      cbn [localStorage Storage.items].
    + split; reflexivity.
    + split.
      * intros other Hother.
        destruct (String.eqb_spec other key); [contradiction | reflexivity].
      * rewrite String.eqb_refl. reflexivity.
  - split; reflexivity.
Qed.



(** ** The bridge's effects *)

(** X17. With a client, a call of the bridge sends exactly one request,
    whatever the outcome (there is no retry); it logs one line, holding the
    error, exactly when the transport fails or the reply text cannot be
    parsed, and then answers the fallback reply. *)
Theorem getJpConversationalResponse_effects :
  forall (client : GoogleGenAI) (course : Course.t) (hole : Hole.t)
         (round : Round.t) (profile : PlayerProfile.t) (n : Net),
    let request := request_for course hole round profile in
    let failed (e : exn) :=
      (mkNet (requests n ++ [request])
             (net_console n ++ [("Error fetching JP's response: " ++ e)%string]),
       Normal fallback_reply) in
    getJpConversationalResponse (Some client) course hole round profile n
    = match client request with
      | Throw e => failed e
      | Normal response =>
          match Response.parsed_text response with
          | Throw e => failed e
          | Normal v => (mkNet (requests n ++ [request]) (net_console n), Normal v)
          end
      end.
Proof.
  intros client course hole round profile n request failed.
  subst request failed.
  unfold getJpConversationalResponse, try_catch, bind, generateContent, lift,
    net_console_error, modify, ret.
  destruct (client (request_for course hole round profile)) as [response | e]; cbn.
  - destruct (Response.parsed_text response) as [v | e]; reflexivity.
  - reflexivity.
Qed.

(** ** The prompt and the data *)

(** X18. The prompt reads the course's name and round history, the hole,
    the current round's conditions and the profile, and nothing else: not
    the course's identifier or holes, and not the current round's date,
    transcript or scores. *)
Theorem buildSystemPrompt_reads :
  forall (course course' : Course.t) (hole : Hole.t) (round round' : Round.t)
         (profile : PlayerProfile.t),
    Course.name course = Course.name course' ->
    Course.roundHistory course = Course.roundHistory course' ->
    Round.conditions round = Round.conditions round' ->
    buildSystemPrompt course hole round profile
    = buildSystemPrompt course' hole round' profile.
Proof.
  intros course course' hole round round' profile Hname Hhistory Hconditions.
  unfold buildSystemPrompt, historySummary, relevantHistory.
  rewrite Hname, Hhistory, Hconditions. reflexivity.
Qed.

Lemma buildSystemPrompt_reads_witness :
  buildSystemPrompt pinehurst hole7 today sample_profile
  = buildSystemPrompt pinehurst_renamed hole7 today_played sample_profile.
Proof.
  apply (buildSystemPrompt_reads pinehurst pinehurst_renamed hole7 today today_played
           sample_profile); reflexivity.
Defined.

Lemma find_existsb :
  forall (A : Type) (p : A -> bool) (l : list A),
    existsb p l = match find p l with Some _ => true | None => false end.
Proof.
  intros A p l. induction l as [| x l IH]; cbn.
  - reflexivity.
  - destruct (p x); [reflexivity | exact IH].
Qed.

Lemma relevantHistory_length :
  forall (course : Course.t) (hole : Hole.t),
    List.length (relevantHistory course hole)
    = List.length (rounds_listing (Hole.holeNumber hole) (Course.roundHistory course)).
Proof.
  intros course hole. unfold relevantHistory, rounds_listing.
  induction (Course.roundHistory course) as [| r rounds IH]; cbn [map filter defined].
  - reflexivity.
  - rewrite find_existsb. unfold on_hole.
    destruct (find _ (Round.holeByHole r)); cbn [defined List.length]; rewrite IH; reflexivity.
Qed.

(** X19. The count the summary reports is the number of rounds of the
    history that list the hole, however often each lists it; it is at most
    the number of rounds, and the summary is the sentinel exactly when it is
    zero. *)
Theorem historySummary_counts_rounds :
  forall (course : Course.t) (hole : Hole.t),
    let n := List.length (rounds_listing (Hole.holeNumber hole) (Course.roundHistory course)) in
    List.length (relevantHistory course hole) = n
    /\ (n <= List.length (Course.roundHistory course))%nat
    /\ historySummary course hole
       = if (0 <? n)%nat
         then ("Player has played this hole " ++ Number.digits (Z.of_nat n)
               ++ " times with an average score of "
               ++ Number.toFixed (avgScore (relevantHistory course hole)) 2 ++ ".")%string
         else "No previous history on this hole.".
Proof.
  intros course hole n. subst n.
  rewrite <- relevantHistory_length.
  split; [reflexivity |].
  split.
  - rewrite relevantHistory_length. unfold rounds_listing. apply filter_length_le.
  - reflexivity.
Qed.

Lemma first_of_each_round_nil :
  forall (course : Course.t) (holeNumber : Z),
    first_of_each_round course holeNumber = [] <-> matching_entries course holeNumber = [].
Proof.
  intros course holeNumber. unfold first_of_each_round, matching_entries.
  induction (Course.roundHistory course) as [| r rounds IH]; cbn [flat_map].
  - tauto.
  - rewrite filter_app. split; intros H; apply app_eq_nil in H; destruct H as [Hr Hrounds].
    + apply IH in Hrounds. rewrite Hrounds.
      destruct (filter (on_hole holeNumber) (Round.holeByHole r)); [reflexivity | discriminate Hr].
    + apply IH in Hrounds. rewrite Hr, Hrounds. reflexivity.
Qed.

(** X20. The summary is the "no history" sentinel exactly when no
    performance of the round history has the hole's number. *)
Theorem historySummary_sentinel_iff :
  forall (course : Course.t) (hole : Hole.t),
    historySummary course hole = "No previous history on this hole."
    <-> matching_entries course (Hole.holeNumber hole) = [].
Proof.
  intros course hole. split.
  - intros Hsentinel.
    apply first_of_each_round_nil.
    rewrite <- relevantHistory_first_of_each_round.
    revert Hsentinel. unfold historySummary.
    destruct (relevantHistory course hole) as [| h entries]; [reflexivity |].
    cbn. intros Hsentinel. discriminate Hsentinel.
  - apply historySummary_no_history.
Qed.

Lemma relevantHistory_push :
  forall (id name : string) (holes : list Hole.t) (history : list Round.t)
         (round : Round.t) (hole : Hole.t),
    relevantHistory (Course.mk id name holes (history ++ [round])) hole
    = relevantHistory (Course.mk id name holes history) hole
      ++ firstn 1 (filter (on_hole (Hole.holeNumber hole)) (Round.holeByHole round)).
Proof.
  intros id name holes history round hole.
  rewrite !relevantHistory_first_of_each_round.
  unfold first_of_each_round. cbn [Course.roundHistory].
  rewrite flat_map_app. cbn [flat_map]. rewrite app_nil_r. reflexivity.
Qed.

(** X21. After [saveRound] has appended a round of a new date, the history
    kept for any hole is the one kept before followed by the round's first
    performance on that hole, if it has one: a round that does not list the
    hole leaves the hole's summary as it was. *)
Theorem saveRound_then_relevantHistory :
  forall (JSON_stringify : GolfData.t -> completion string) (h : Provider)
         (courseId : string) (round : Round.t) (i : nat) (course : Course.t),
    nth_error (GolfData.courses (cell h)) i = Some course ->
    Course.id course = courseId ->
    rounds_on (Round.date round) (Course.roundHistory course) = [] ->
    exists (h' : Provider) (course' : Course.t),
      perform JSON_stringify (SaveRound courseId round) h = (h', Normal tt)
      /\ nth_error (GolfData.courses (cell h')) i = Some course'
      /\ (forall hole : Hole.t,
             relevantHistory course' hole
             = relevantHistory course hole
               ++ firstn 1 (filter (on_hole (Hole.holeNumber hole)) (Round.holeByHole round)))
      /\ (forall hole : Hole.t,
             filter (on_hole (Hole.holeNumber hole)) (Round.holeByHole round) = [] ->
             historySummary course' hole = historySummary course hole).
Proof.
  intros JSON_stringify h courseId round i course Hnth Hid Hnew.
  destruct (perform_cell JSON_stringify (SaveRound courseId round) h) as [b Hrun].
  assert (Hcourse :
            nth_error (GolfData.courses (saveRound_updater courseId round (cell h))) i
            = Some (Course.mk (Course.id course) (Course.name course) (Course.holes course)
                              (Course.roundHistory course ++ [round]))).
  { rewrite (saveRound_updater_nth courseId round (cell h) i course Hnth Hid).
    unfold rounds_on in Hnew. rewrite (filter_nil_findIndex _ _ _ Hnew). reflexivity. }
  do 2 eexists. split; [exact Hrun |]. split; [exact Hcourse |].
  assert (Hpush : forall hole,
             relevantHistory
               (Course.mk (Course.id course) (Course.name course) (Course.holes course)
                          (Course.roundHistory course ++ [round])) hole
             = relevantHistory course hole
               ++ firstn 1 (filter (on_hole (Hole.holeNumber hole)) (Round.holeByHole round))).
  { intros hole. rewrite relevantHistory_push. destruct course; reflexivity. }
  split; [exact Hpush |].
  intros hole Hnone.
  unfold historySummary. rewrite Hpush, Hnone. cbn [firstn]. rewrite app_nil_r.
  reflexivity.
Qed.

Lemma saveRound_then_relevantHistory_witness :
  exists (h' : Provider) (course' : Course.t),
    perform print_fixed (SaveRound "pinehurst" later) sample_provider = (h', Normal tt)
    /\ nth_error (GolfData.courses (cell h')) 0 = Some course'
    /\ (forall hole : Hole.t,
           relevantHistory course' hole
           = relevantHistory pinehurst hole
             ++ firstn 1 (filter (on_hole (Hole.holeNumber hole)) (Round.holeByHole later)))
    /\ (forall hole : Hole.t,
           filter (on_hole (Hole.holeNumber hole)) (Round.holeByHole later) = [] ->
           historySummary course' hole = historySummary pinehurst hole).
Proof.
  apply (saveRound_then_relevantHistory print_fixed sample_provider "pinehurst" later 0
           pinehurst); reflexivity.
Defined.

(** What [addCourseNote] leaves at the place of a hole it matches. *)
Lemma addCourseNote_updater_hole :
  forall (courseId : string) (holeNumber : Z) (note : string) (data : GolfData.t)
         (i : nat) (course : Course.t) (j : nat) (hole : Hole.t),
    nth_error (GolfData.courses data) i = Some course ->
    Course.id course = courseId ->
    nth_error (Course.holes course) j = Some hole ->
    Hole.holeNumber hole = holeNumber ->
    exists course' : Course.t,
      nth_error (GolfData.courses (addCourseNote_updater courseId holeNumber note data)) i
      = Some course'
      /\ nth_error (Course.holes course') j
         = Some (Hole.mk (Hole.holeNumber hole) (Hole.par hole) (Hole.yardage hole)
                         (Some (notes_or_empty hole ++ [note]))).
Proof.
  intros courseId holeNumber note data i course j hole Hnth Hid Hhole Hnumber.
  unfold addCourseNote_updater. cbn [GolfData.courses].
  rewrite nth_error_map, Hnth. cbn [option_map].
  rewrite Hid, String.eqb_refl.
  eexists. split; [reflexivity |]. cbn [Course.holes].
  rewrite nth_error_map, Hhole. cbn [option_map].
  rewrite Hnumber, Z.eqb_refl. reflexivity.
Qed.

Lemma append_assoc :
  forall a b c : string, ((a ++ b) ++ c)%string = (a ++ b ++ c)%string.
Proof.
  induction a as [| ch a IH]; intros b c; cbn.
  - reflexivity.
  - rewrite IH. reflexivity.
Qed.

(** Joining with one more item puts it last, after a separator if it is
    not alone. *)
Lemma join_push :
  forall (separator : string) (items : list string) (item : string),
    join separator (items ++ [item])
    = match items with
      | [] => item
      | _ :: _ => (join separator items ++ separator ++ item)%string
      end.
Proof.
  intros separator items item. unfold join.
  induction items as [| x items IH]; [reflexivity |].
  destruct items as [| y items].
  - reflexivity.
  - change (String.concat separator ((x :: y :: items) ++ [item]))
      with (x ++ separator ++ String.concat separator ((y :: items) ++ [item]))%string.
    rewrite IH.
    change (String.concat separator (x :: y :: items))
      with (x ++ separator ++ String.concat separator (y :: items))%string.
    rewrite !append_assoc. reflexivity.
Qed.

(** X22. After [addCourseNote] on a hole it matches, the prompt's notes
    line for that hole lists the notes the hole had and then the new note,
    after a comma and a space when it is not the only one. *)
Theorem addCourseNote_then_holeNotes :
  forall (JSON_stringify : GolfData.t -> completion string) (h : Provider)
         (courseId : string) (holeNumber : Z) (note : string)
         (i : nat) (course : Course.t) (j : nat) (hole : Hole.t),
    nth_error (GolfData.courses (cell h)) i = Some course ->
    Course.id course = courseId ->
    nth_error (Course.holes course) j = Some hole ->
    Hole.holeNumber hole = holeNumber ->
    exists (h' : Provider) (course' : Course.t) (hole' : Hole.t),
      perform JSON_stringify (AddCourseNote courseId holeNumber note) h = (h', Normal tt)
      /\ nth_error (GolfData.courses (cell h')) i = Some course'
      /\ nth_error (Course.holes course') j = Some hole'
      /\ holeNotes hole'
         = ("
    - Your organic notes on this hole: "
            ++ match notes_or_empty hole with
               | [] => note
               | _ :: _ => join ", " (notes_or_empty hole) ++ ", " ++ note
               end)%string.
Proof.
  intros JSON_stringify h courseId holeNumber note i course j hole Hnth Hid Hhole Hnumber.
  destruct (perform_cell JSON_stringify (AddCourseNote courseId holeNumber note) h)
    as [b Hrun].
  destruct (addCourseNote_updater_hole courseId holeNumber note (cell h) i course j hole
              Hnth Hid Hhole Hnumber) as [course' [Hcourse Hhole']].
  do 3 eexists.
  split; [exact Hrun |]. split; [exact Hcourse |]. split; [exact Hhole' |].
  unfold holeNotes. cbn [Hole.notes].
  rewrite join_push. reflexivity.
Qed.

Lemma addCourseNote_then_holeNotes_witness :
  exists (h' : Provider) (course' : Course.t) (hole' : Hole.t),
    perform print_fixed (AddCourseNote "pinehurst" 7 "Green runs fast") sample_provider
    = (h', Normal tt)
    /\ nth_error (GolfData.courses (cell h')) 0 = Some course'
    /\ nth_error (Course.holes course') 0 = Some hole'
    /\ holeNotes hole'
       = ("
    - Your organic notes on this hole: " ++ "Green runs fast")%string.
Proof.
  apply (addCourseNote_then_holeNotes print_fixed sample_provider "pinehurst" 7
           "Green runs fast" 0 pinehurst 0 hole7); reflexivity.
Defined.

Lemma updater_keeps_noted :
  forall (a : Action) (data : GolfData.t),
    action_noted a -> data_noted data -> data_noted (updater_of a data).
Proof.
  intros [course | courseId round | courseId holeNumber note | tendency] data Ha Hdata;
    unfold data_noted in *; cbn [updater_of].
  - unfold addCourse_updater. cbn [GolfData.courses].
    apply Forall_app. split; [exact Hdata | constructor; [exact Ha | constructor]].
  - unfold saveRound_updater. cbn [GolfData.courses].
    apply Forall_map. revert Hdata. apply Forall_impl. intros course Hcourse.
    destruct (String.eqb (Course.id course) courseId); exact Hcourse.
  - unfold addCourseNote_updater. cbn [GolfData.courses].
    apply Forall_map. revert Hdata. apply Forall_impl. intros course Hcourse.
    destruct (String.eqb (Course.id course) courseId); [| exact Hcourse].
    unfold course_noted in *. cbn [Course.holes].
    apply Forall_map. revert Hcourse. apply Forall_impl. intros hole Hhole.
    destruct (Hole.holeNumber hole =? holeNumber); [| exact Hhole].
    unfold hole_noted. cbn [Hole.notes]. intros Hempty.
    injection Hempty as Hempty. destruct (Hole.notes hole) as [[| n notes] |];
      discriminate Hempty.
  - unfold addPlayerTendency_updater.
    destruct (existsb _ _); exact Hdata.
Qed.

Lemma replay_keeps_noted :
  forall (actions : list Action) (data : GolfData.t),
    Forall action_noted actions -> data_noted data -> data_noted (replay actions data).
Proof.
  induction actions as [| a actions IH]; intros data Hactions Hdata.
  - exact Hdata.
  - inversion Hactions as [| a' actions' Ha Hrest]; subst.
    cbn. apply IH; [exact Hrest |].
    apply updater_keeps_noted; assumption.
Qed.

(** X23. The mutators never leave a hole with a notes list that is present
    and empty: when the state has none and the courses added bring none, no
    session produces one, so the notes line of the prompt is empty only for
    a hole without notes and otherwise lists at least one note. *)
Theorem session_keeps_notes_nonempty :
  forall (JSON_stringify : GolfData.t -> completion string)
         (actions : list Action) (h : Provider),
    data_noted (cell h) ->
    Forall action_noted actions ->
    exists h' : Provider,
      session JSON_stringify actions h = (h', Normal tt)
      /\ forall course hole,
           In course (GolfData.courses (cell h')) ->
           In hole (Course.holes course) ->
           match Hole.notes hole with
           | None => holeNotes hole = EmptyString
           | Some notes =>
               exists n rest,
                 notes = n :: rest
                 /\ holeNotes hole
                    = ("
    - Your organic notes on this hole: " ++ join ", " (n :: rest))%string
           end.
Proof.
  intros JSON_stringify actions h Hdata Hactions.
  destruct (session_cell JSON_stringify actions h) as [b Hrun].
  eexists. split; [exact Hrun |].
  cbn [cell]. intros course hole Hcourse Hhole.
  pose proof (replay_keeps_noted actions (cell h) Hactions Hdata) as Hnoted.
  unfold data_noted in Hnoted. rewrite Forall_forall in Hnoted.
  specialize (Hnoted course Hcourse). unfold course_noted in Hnoted.
  rewrite Forall_forall in Hnoted. specialize (Hnoted hole Hhole).
  unfold hole_noted in Hnoted. unfold holeNotes.
  destruct (Hole.notes hole) as [[| n rest] |].
  - congruence.
  - exists n, rest. split; reflexivity.
  - reflexivity.
Qed.

Lemma session_keeps_notes_nonempty_witness :
  exists h' : Provider,
    session print_fixed
      [ AddCourse augusta; AddCourseNote "pinehurst" 7 "Green runs fast";
        SaveRound "augusta" later ]
      sample_provider
    = (h', Normal tt)
    /\ forall course hole,
         In course (GolfData.courses (cell h')) ->
         In hole (Course.holes course) ->
         match Hole.notes hole with
         | None => holeNotes hole = EmptyString
         | Some notes =>
             exists n rest,
               notes = n :: rest
               /\ holeNotes hole
                  = ("
    - Your organic notes on this hole: " ++ join ", " (n :: rest))%string
         end.
Proof.
  apply (session_keeps_notes_nonempty print_fixed).
  - repeat constructor. cbn. discriminate.
  - repeat constructor. cbn. discriminate.
Defined.
